(** * Verification of [aggregator/scrapers.py]

    A shallow embedding of the news scrapers: the retry loop of
    [BaseScraper._make_request], the date normaliser [_parse_date], the two
    per-source extractors, the mock scrapers and the scraper registry.

    Python code that sleeps, logs, reads the clock, draws random numbers or
    talks to the network is embedded in a state-and-exception monad.  The
    libraries the module imports ([requests], [bs4], [datetime], [random],
    [django.utils.timezone]) are not part of the module; the parts of their
    behaviour the module relies on are modelled in the first half of the
    file, each with a comment saying what is modelled. *)

From Stdlib Require Import ZArith QArith List String Ascii Lia.
From stdpp Require Import base list strings gmap pretty.

Open Scope string_scope.
Open Scope Z_scope.

(** ** Python exceptions *)

(** The exception classes that can occur in the module.  Every class here
    derives from [Exception]; [HTTPError], [ConnectionError] and [Timeout]
    derive from [requests.exceptions.RequestException]. *)
Inductive exn_class :=
  | RequestException
  | HTTPError
  | ConnectionError
  | Timeout
  | ValueError
  | TypeError
  | AttributeError
  | FeatureNotFound
  | RuntimeError.

Record exn := mk_exn { exn_cls : exn_class; exn_msg : string }.

(** [isinstance(e, requests.exceptions.RequestException)] *)
Definition is_RequestException (e : exn) : bool :=
  match exn_cls e with
  | RequestException | HTTPError | ConnectionError | Timeout => true
  | _ => false
  end.

(** [isinstance(e, ValueError)] *)
Definition is_ValueError (e : exn) : bool :=
  match exn_cls e with
  | ValueError => true
  | _ => false
  end.

(** [isinstance(e, Exception)]: every modelled class derives from it. *)
Definition is_Exception (e : exn) : bool := true.

(** The outcome of evaluating a Python expression. *)
Inductive Res (A : Type) :=
  | Ok (a : A)
  | Raise (e : exn).
Arguments Ok {A} a.
Arguments Raise {A} e.

Definition is_Ok {A} (r : Res A) : bool :=
  match r with Ok _ => true | Raise _ => false end.

(** ** The outside world *)

(** [requests.Response]: the status code, the reason phrase, the url
    ([response.url]) and the body. *)
Record Response := mk_Response {
  status_code : Z;
  reason : string;
  response_url : string;
  content : string
}.

(** [datetime.datetime], as the reading of a wall clock in microseconds
    since 0001-01-01T00:00:00, with the UTC offset (in minutes) of an aware
    value and [None] for a naive one. *)
Record datetime := mk_datetime { wall_us : Z; tzinfo : option Z }.

(** What the program cannot decide: the Django setting [USE_TZ], the outcome
    of the k-th call of [session.get] for its url and timeout (after the
    retries of the adapter that [_create_session] mounts), the reading of
    the k-th look at the clock and the k-th raw draw of the random
    generator. *)
Record Env := mk_Env {
  USE_TZ : bool;
  session_get : nat -> string -> Z -> Res Response;
  wall_clock : nat -> Z;
  getrandbits : nat -> N
}.

Inductive level := INFO | WARNING | ERROR.

(** What the program changes: how many requests were sent, how often the
    clock was read, how many random numbers were drawn, the delays slept
    and the log lines written (both oldest first). *)
Record World := mk_World {
  gets : nat;
  ticks : nat;
  draws : nat;
  slept : list Q;
  logged : list (level * string)
}.

Definition world0 : World := mk_World 0 0 0 [] [].

(** ** The monad *)

(** A computation reads the environment, changes a state [S] and returns a
    value or raises.  The state reached when an exception is raised is kept:
    a Python [except] block sees the effects of the [try] block. *)
Definition M (S A : Type) : Type := Env -> S -> Res A * S.

Definition ret {S A} (a : A) : M S A := fun _ s => (Ok a, s).

Definition bind {S A B} (m : M S A) (k : A -> M S B) : M S B :=
  fun env s =>
    match m env s with
    | (Ok a, s') => k a env s'
    | (Raise e, s') => (Raise e, s')
    end.

Definition raise {S A} (e : exn) : M S A := fun _ s => (Raise e, s).

(** An expression that evaluates without effects. *)
Definition eval {S A} (r : Res A) : M S A := fun _ s => (r, s).

(** [try: m  except C as e: h e], [catches] deciding [isinstance(e, C)]. *)
Definition try_except {S A} (m : M S A) (catches : exn -> bool)
    (h : exn -> M S A) : M S A :=
  fun env s =>
    match m env s with
    | (Ok a, s') => (Ok a, s')
    | (Raise e, s') => if catches e then h e env s' else (Raise e, s')
    end.

#[global] Instance M_ret {S} : MRet (M S) := fun A a => ret a.
#[global] Instance M_bind {S} : MBind (M S) := fun A B k m => bind m k.

(** How the body of a loop (or a [try] block) ends: it falls through to the
    next statement, or it executes [return r]. *)
Inductive flow (R : Type) :=
  | Next
  | Return (r : R).
Arguments Next {R}.
Arguments Return {R} r.

(** [for x in xs: body x] *)
Fixpoint for_in {S X R} (xs : list X) (body : X -> M S (flow R)) : M S (flow R) :=
  match xs with
  | [] => ret Next
  | x :: xs' =>
      r ← body x;
      match r with
      | Next => for_in xs' body
      | Return v => ret (Return v)
      end
  end.

(** [range(n)] *)
Definition range (n : nat) : list Z := map Z.of_nat (seq 0 n).

(** *** Local variables *)

(** A function with a mutable local of type [L] runs on the state [L * World]. *)
Definition lift {L A} (m : M World A) : M (L * World) A :=
  fun env s =>
    match m env (snd s) with
    | (r, w') => (r, (fst s, w'))
    end.

Definition get_local {L} : M (L * World) L := fun _ s => (Ok (fst s), s).

Definition set_local {L} (l : L) : M (L * World) unit :=
  fun _ s => (Ok tt, (l, snd s)).

(** Runs [m] with its local initialised to [l0]. *)
Definition with_local {L A} (l0 : L) (m : M (L * World) A) : M World A :=
  fun env w =>
    match m env (l0, w) with
    | (r, s') => (r, snd s')
    end.

(** *** Effects *)

Definition log (lv : level) (msg : string) : M World unit :=
  fun _ w => (Ok tt, mk_World (gets w) (ticks w) (draws w) (slept w) (logged w ++ [(lv, msg)])).

(** [time.sleep(delay)] *)
Definition time_sleep (delay : Q) : M World unit :=
  fun _ w => (Ok tt, mk_World (gets w) (ticks w) (draws w) (slept w ++ [delay]) (logged w)).

Definition tick (w : World) : World :=
  mk_World (gets w) (S (ticks w)) (draws w) (slept w) (logged w).

Definition drawn (w : World) : World :=
  mk_World (gets w) (ticks w) (S (draws w)) (slept w) (logged w).

Definition sent (w : World) : World :=
  mk_World (S (gets w)) (ticks w) (draws w) (slept w) (logged w).

(** *** Floats *)

(** A Python float is an IEEE 754 binary64 number.  It is represented by
    the rational it denotes, and every operation rounds its exact result
    to 53 significant bits, to the nearest, ties to the even significand.
    The exponent range is not modelled: the numbers of this module lie
    between 2^-1022 and 2^1024. *)

(** [n / d], for a positive [d], rounded to the nearest integer, ties to
    the even one. *)
Definition rne (n d : Z) : Z :=
  let q := n / d in
  let r := n mod d in
  if 2 * r <? d then q
  else if d <? 2 * r then q + 1
  else if Z.even q then q else q + 1.

(** The [e] with [2^e <= n / d < 2^(e+1)], for positive [n] and [d]. *)
Definition binade (n d : Z) : Z :=
  let e0 := Z.log2 n - Z.log2 d in
  if (if 0 <=? e0 then 2 ^ e0 * d <=? n else d <=? 2 ^ (- e0) * n) then e0 else e0 - 1.

(** The binary64 number nearest to [x]. *)
Definition binary64 (x : Q) : Q :=
  let n := Z.abs (Qnum x) in
  let d := Z.pos (Qden x) in
  if n =? 0 then 0%Q
  else
    let s := 52 - binade n d in
    let r := if 0 <=? s then rne (n * 2 ^ s) d # Z.to_pos (2 ^ s)
             else inject_Z (rne n (d * 2 ^ (- s)) * 2 ^ (- s)) in
    if Qnum x <? 0 then (- r)%Q else r.

(** [float(z)], and [a + b] and [a * b] on floats. *)
Definition float_of_int (z : Z) : Q := binary64 (inject_Z z).
Definition float_add (a b : Q) : Q := binary64 (a + b).
Definition float_mul (a b : Q) : Q := binary64 (a * b).

(** [random.random()]: 53 random bits scaled into [0, 1). *)
Definition random_of_bits (bits : N) : Q :=
  Z.of_N (bits mod 2 ^ 53) # 2 ^ 53.

Definition random_random : M World Q :=
  fun env w => (Ok (random_of_bits (getrandbits env (draws w))), drawn w).

(** [random.uniform(a, b)] is [a + (b - a) * self.random()], here for
    integers [a] and [b]: the difference is an integer, the product and
    the sum are floats. *)
Definition uniform_of (a b : Z) (u : Q) : Q :=
  float_add (float_of_int a) (float_mul (float_of_int (b - a)) u).

Definition random_uniform (a b : Z) : M World Q :=
  u ← random_random; mret (uniform_of a b u).

(** [random.randint(a, b)], for [a <= b]: an integer of [a .. b]. *)
Definition randint_of_bits (a b : Z) (bits : N) : Z :=
  a + Z.of_N bits mod (b - a + 1).

Definition random_randint (a b : Z) : M World Z :=
  fun env w => (Ok (randint_of_bits a b (getrandbits env (draws w))), drawn w).

Definition UTC : Z := 0.

(** [django.utils.timezone.now()] is
    [datetime.now(tz=timezone.utc if settings.USE_TZ else None)]. *)
Definition timezone_now : M World datetime :=
  fun env w =>
    (Ok (mk_datetime (wall_clock env (ticks w)) (if USE_TZ env then Some UTC else None)),
     tick w).

Definition us_per_hour : Z := 3600 * 1000000.
Definition us_per_day : Z := 24 * us_per_hour.

(** [dt - timedelta(hours=h)] *)
Definition minus_hours (dt : datetime) (h : Z) : datetime :=
  mk_datetime (wall_us dt - h * us_per_hour) (tzinfo dt).

(** [self.session.get(url, headers=self.headers, timeout=timeout)] *)
Definition session_get_url (url : string) (timeout : Z) : M World Response :=
  fun env w => (session_get env (gets w) url timeout, sent w).

(** [Response.raise_for_status()] raises [HTTPError] for a 4xx or 5xx
    status, with the message that [requests] builds. *)
Definition raise_for_status (response : Response) : Res unit :=
  if (400 <=? status_code response) && (status_code response <? 500) then
    Raise (mk_exn HTTPError (pretty (status_code response) +:+ " Client Error: "
                             +:+ reason response +:+ " for url: " +:+ response_url response))
  else if (500 <=? status_code response) && (status_code response <? 600) then
    Raise (mk_exn HTTPError (pretty (status_code response) +:+ " Server Error: "
                             +:+ reason response +:+ " for url: " +:+ response_url response))
  else Ok tt.

(** [bool(response)] is [response.ok]: [raise_for_status] does not raise. *)
Definition Response_bool (response : Response) : bool :=
  is_Ok (raise_for_status response).

(** Truth value of an [Optional[Response]]. *)
Definition truthy_response (response : option Response) : bool :=
  match response with
  | None => false
  | Some r => Response_bool r
  end.

(** ** [datetime.strptime] *)

(** The model follows CPython's [_strptime.py] and [_pydatetime.py] for
    formats built from the directives [%Y], [%m], [%d] and literal,
    non-blank characters, over strings of code points below 256. *)
Module pydatetime.

Definition _is_leap (year : Z) : bool :=
  (year mod 4 =? 0) && (negb (year mod 100 =? 0) || (year mod 400 =? 0)).

Definition _days_before_year (year : Z) : Z :=
  let y := year - 1 in
  y * 365 + y / 4 - y / 100 + y / 400.

Definition _DAYS_IN_MONTH : list Z :=
  [-1; 31; 28; 31; 30; 31; 30; 31; 31; 30; 31; 30; 31].

Definition _DAYS_BEFORE_MONTH : list Z :=
  [-1; 0; 31; 59; 90; 120; 151; 181; 212; 243; 273; 304; 334].

Definition _days_in_month (year month : Z) : Z :=
  if (month =? 2) && _is_leap year then 29
  else nth (Z.to_nat month) _DAYS_IN_MONTH 0.

Definition _days_before_month (year month : Z) : Z :=
  nth (Z.to_nat month) _DAYS_BEFORE_MONTH 0
  + (if (month >? 2) && _is_leap year then 1 else 0).

Definition _ymd2ord (year month day : Z) : Z :=
  _days_before_year year + _days_before_month year month + day.

Definition MINYEAR : Z := 1.
Definition MAXYEAR : Z := 9999.

(** [_check_date_fields] *)
Definition _check_date_fields (year month day : Z) : Res unit :=
  if negb ((MINYEAR <=? year) && (year <=? MAXYEAR)) then
    Raise (mk_exn ValueError "year must be in 1..9999")
  else if negb ((1 <=? month) && (month <=? 12)) then
    Raise (mk_exn ValueError "month must be in 1..12")
  else if negb ((1 <=? day) && (day <=? _days_in_month year month)) then
    Raise (mk_exn ValueError "day is out of range for month")
  else Ok tt.

(** The naive [datetime(year, month, day)], at midnight. *)
Definition midnight (year month day : Z) : datetime :=
  mk_datetime ((_ymd2ord year month day - 1) * us_per_day) None.

(** [dt.toordinal()] and the microseconds since midnight. *)
Definition toordinal (dt : datetime) : Z := wall_us dt / us_per_day + 1.
Definition time_of_day (dt : datetime) : Z := wall_us dt mod us_per_day.

(** *** The regular expression of a format *)

Inductive cclass :=
  | Chr (c : ascii)           (* the character itself *)
  | Rng (lo hi : ascii).      (* [lo-hi] *)

Definition digit : cclass := Rng "0" "9".

Definition in_class (k : cclass) (c : ascii) : bool :=
  match k with
  | Chr c' => Ascii.eqb c c'
  | Rng lo hi => (N_of_ascii lo <=? N_of_ascii c)%N && (N_of_ascii c <=? N_of_ascii hi)%N
  end.

Inductive item :=
  | Lit (c : ascii)
  | Group (name : ascii) (alts : list (list cclass)).

(** The entries of [TimeRE] for the three directives:
    [%Y] is [\d\d\d\d], [%m] is [1[0-2]|0[1-9]|[1-9]] and
    [%d] is [3[0-1]|[1-2]\d|0[1-9]|[1-9]| [1-9]]. *)
Definition TimeRE (directive : ascii) : option (list (list cclass)) :=
  if Ascii.eqb directive "Y" then Some [[digit; digit; digit; digit]]
  else if Ascii.eqb directive "m" then
    Some [[Chr "1"; Rng "0" "2"]; [Chr "0"; Rng "1" "9"]; [Rng "1" "9"]]
  else if Ascii.eqb directive "d" then
    Some [[Chr "3"; Rng "0" "1"]; [Rng "1" "2"; digit]; [Chr "0"; Rng "1" "9"];
          [Rng "1" "9"]; [Chr " "; Rng "1" "9"]]
  else None.

(** [TimeRE.pattern]: the items of a format, or the bad directive. *)
Fixpoint pattern (format : list ascii) : ascii + list item :=
  match format with
  | [] => inr []
  | c :: rest =>
      if Ascii.eqb c "%" then
        match rest with
        | [] => inl c
        | dir :: rest' =>
            match TimeRE dir with
            | None => inl dir
            | Some alts =>
                match pattern rest' with
                | inl bad => inl bad
                | inr items => inr (Group dir alts :: items)
                end
            end
        end
      else
        match pattern rest with
        | inl bad => inl bad
        | inr items => inr (Lit c :: items)
        end
  end.

(** One alternative of a group against the front of the text. *)
Fixpoint match_alt (alt : list cclass) (s : list ascii) : option (list ascii * list ascii) :=
  match alt with
  | [] => Some ([], s)
  | k :: alt' =>
      match s with
      | c :: s' =>
          if in_class k c then
            match match_alt alt' s' with
            | Some (txt, rest) => Some (c :: txt, rest)
            | None => None
            end
          else None
      | [] => None
      end
  end.

(** The first result among the alternatives, tried in order. *)
Fixpoint first_of {A B} (f : A -> option B) (xs : list A) : option B :=
  match xs with
  | [] => None
  | x :: xs' => match f x with Some b => Some b | None => first_of f xs' end
  end.

(** [format_regex.match(data_string)]: a backtracking match anchored at the
    start; the groups found and the text after the match. *)
Fixpoint re_match (items : list item) (s : list ascii)
    : option (list (ascii * list ascii) * list ascii) :=
  match items with
  | [] => Some ([], s)
  | Lit c :: items' =>
      match s with
      | c' :: s' => if Ascii.eqb c c' then re_match items' s' else None
      | [] => None
      end
  | Group name alts :: items' =>
      first_of (fun alt =>
        match match_alt alt s with
        | Some (txt, s') =>
            match re_match items' s' with
            | Some (found, rest) => Some ((name, txt) :: found, rest)
            | None => None
            end
        | None => None
        end) alts
  end.

(** [int(text)] for a text of digits after blanks. *)
Definition int_digits (txt : list ascii) : Z :=
  fold_left (fun acc c => if Ascii.eqb c " " then acc else 10 * acc + (Z.of_N (N_of_ascii c) - 48))
            txt 0.

(** [found_dict[name]] converted, or the default of the field. *)
Fixpoint group_int (name : ascii) (default : Z) (found : list (ascii * list ascii)) : Z :=
  match found with
  | [] => default
  | (n, txt) :: found' => if Ascii.eqb n name then int_digits txt else group_int name default found'
  end.

(** [datetime.strptime(data_string, format)] *)
Definition strptime (data_string format : string) : Res datetime :=
  match pattern (list_ascii_of_string format) with
  | inl bad =>
      Raise (mk_exn ValueError ("'" +:+ String bad "" +:+ "' is a bad directive in format '" +:+ format +:+ "'"))
  | inr items =>
      match re_match items (list_ascii_of_string data_string) with
      | None =>
          Raise (mk_exn ValueError ("time data '" +:+ data_string +:+ "' does not match format '" +:+ format +:+ "'"))
      | Some (found, rest) =>
          match rest with
          | _ :: _ =>
              Raise (mk_exn ValueError ("unconverted data remains: " +:+ string_of_list_ascii rest))
          | [] =>
              let year := group_int "Y" 1900 found in
              let month := group_int "m" 1 found in
              let day := group_int "d" 1 found in
              match _check_date_fields year month day with
              | Raise e => Raise e
              | Ok _ => Ok (midnight year month day)
              end
          end
      end
  end.

End pydatetime.

(** ** [BaseScraper] *)

Module BaseScraper.

(** The exponential term of the delay, [base_delay * (2 ** attempt)]. *)
Definition backoff (base_delay attempt : Z) : Z := base_delay * 2 ^ attempt.

Definition _make_request (url : string) (timeout : Z) : M World (option Response) :=
  let max_retries := 3%nat in
  let base_delay := 1 in
  r ← for_in (range max_retries) (fun attempt =>
         try_except
           (response ← session_get_url url timeout;
            eval (raise_for_status response);;
            mret (Return (Some response)))
           is_RequestException
           (fun e =>
              log WARNING ("Request attempt " +:+ pretty (attempt + 1) +:+ " failed for "
                           +:+ url +:+ ": " +:+ exn_msg e);;
              if attempt <? Z.of_nat max_retries - 1 then
                jitter ← random_uniform 0 1;
                let delay := float_add (float_of_int (backoff base_delay attempt)) jitter in
                time_sleep delay;;
                mret Next
              else
                log ERROR ("All retry attempts failed for " +:+ url);;
                mret (Return None)));
  match r with
  | Return v => mret v
  | Next => mret None
  end.

Definition _parse_date (date_str : string) : M World datetime :=
  try_except
    (r ← for_in ["%Y-%m-%d"; "%d/%m/%Y"; "%m/%d/%Y"] (fun fmt =>
           try_except
             (dt ← eval (pydatetime.strptime date_str fmt);
              mret (Return dt))
             is_ValueError
             (fun _ => mret Next));
     match r with
     | Return dt => mret dt
     | Next => timezone_now
     end)
    is_Exception
    (fun e =>
       log WARNING ("Failed to parse date '" +:+ date_str +:+ "': " +:+ exn_msg e);;
       timezone_now).

End BaseScraper.

(** ** The parsed document *)

(** What the extractors ask of [bs4]: the constructor
    [BeautifulSoup(markup, features)], [find_all(name, **attrs)] and
    [find(name, **attrs)] on an element, [get_text(strip=True)] and
    [get(key, default)].  The elements are duck-typed in the source, so
    every operation may raise. *)
Class Soup (E : Type) := {
  BeautifulSoup : string -> string -> Res E;
  find_all : E -> string -> list (string * string) -> Res (list E);
  find : E -> string -> list (string * string) -> Res (option E);
  get_text : E -> Res string;
  get : E -> string -> string -> Res string
}.

(** The article dictionary, with its five keys. *)
Record Article := mk_Article {
  title : string;
  summary : string;
  url : string;
  source : string;
  published_at : datetime
}.

(** The fields of an article that do not depend on the clock. *)
Definition fields (a : Article) : string * string * string * string :=
  (title a, summary a, url a, source a).

(** ** [InShortsScaper] *)

Module InShortsScaper.
Section WithSoup.
Context {E : Type} `{Soup E}.

Definition base_url : string := "https://inshorts.com/en/read".
Definition source_name : string := "inshorts".

(** The three elements are [Tag]s or [None]; a [Tag] is always true, so
    [all([...])] holds exactly when the three were found. *)
Definition _extract_article_data (card : E) : M World (option Article) :=
  try_except
    (title_elem ← eval (find card "span" [("itemprop", "headline")]);
     summary_elem ← eval (find card "div" [("itemprop", "articleBody")]);
     url_elem ← eval (find card "a" [("class", "clickable")]);
     match title_elem, summary_elem, url_elem with
     | Some title_elem, Some summary_elem, Some url_elem =>
         title ← eval (get_text title_elem);
         summary ← eval (get_text summary_elem);
         url ← eval (get url_elem "href" "");
         now ← timezone_now;
         hours ← random_randint 1 24;
         mret (Some (mk_Article title summary url source_name (minus_hours now hours)))
     | _, _, _ => mret None
     end)
    is_Exception
    (fun e =>
       log ERROR ("Error extracting article data: " +:+ exn_msg e);;
       mret None).

(** The local is the list [articles]. *)
Definition scrape_articles : M World (list Article) :=
  with_local [] (
    lift (log INFO "Starting InShorts scraping...");;
    r ← try_except
          (response ← lift (BaseScraper._make_request base_url 10);
           match response with
           | Some response =>
               if negb (Response_bool response) then
                 articles ← get_local; mret (Return articles)
               else
                 soup ← eval (BeautifulSoup (content response) "lxml");
                 article_cards ← eval (find_all soup "div" [("class", "news-card")]);
                 for_in (take 20 article_cards) (fun card =>
                   try_except
                     (article_data ← lift (_extract_article_data card);
                      match article_data with
                      | Some article_data =>
                          articles ← get_local;
                          set_local (articles ++ [article_data])%list;;
                          mret Next
                      | None => mret Next
                      end)
                     is_Exception
                     (fun e =>
                        lift (log ERROR ("Error extracting article data: " +:+ exn_msg e));;
                        mret Next))
           | None => articles ← get_local; mret (Return articles)
           end)
          is_Exception
          (fun e =>
             lift (log ERROR ("Error scraping InShorts: " +:+ exn_msg e));;
             mret Next);
    match r with
    | Return articles => mret articles
    | Next =>
        articles ← get_local;
        lift (log INFO ("Scraped " +:+ pretty (length articles) +:+ " articles from InShorts"));;
        mret articles
    end).

End WithSoup.
End InShortsScaper.

(** ** [HindustanTimesScaper] *)

Module HindustanTimesScaper.
Section WithSoup.
Context {E : Type} `{Soup E}.

Definition base_url : string := "https://www.hindustantimes.com/latest-news".
Definition source_name : string := "hindustan_times".

Definition _extract_article_data (element : E) : M World (option Article) :=
  try_except
    (title_elem ← eval (find element "h3" [("class", "hdg3")]);
     summary_elem ← eval (find element "p" [("class", "anch")]);
     link_elem ← eval (find element "a" []);
     match title_elem, link_elem with
     | Some title_elem, Some link_elem =>
         summary ← match summary_elem with
                   | Some summary_elem => eval (get_text summary_elem)
                   | None => eval (get_text title_elem)
                   end;
         title ← eval (get_text title_elem);
         url ← eval (get link_elem "href" "");
         now ← timezone_now;
         hours ← random_randint 1 24;
         mret (Some (mk_Article title summary url source_name (minus_hours now hours)))
     | _, _ => mret None
     end)
    is_Exception
    (fun e =>
       log ERROR ("Error extracting article data: " +:+ exn_msg e);;
       mret None).

Definition scrape_articles : M World (list Article) :=
  with_local [] (
    lift (log INFO "Starting Hindustan Times scraping...");;
    r ← try_except
          (response ← lift (BaseScraper._make_request base_url 10);
           match response with
           | Some response =>
               if negb (Response_bool response) then
                 articles ← get_local; mret (Return articles)
               else
                 soup ← eval (BeautifulSoup (content response) "lxml");
                 article_elements ← eval (find_all soup "div" [("class", "cartHolder")]);
                 for_in (take 20 article_elements) (fun element =>
                   try_except
                     (article_data ← lift (_extract_article_data element);
                      match article_data with
                      | Some article_data =>
                          articles ← get_local;
                          set_local (articles ++ [article_data])%list;;
                          mret Next
                      | None => mret Next
                      end)
                     is_Exception
                     (fun e =>
                        lift (log ERROR ("Error extracting article data: " +:+ exn_msg e));;
                        mret Next))
           | None => articles ← get_local; mret (Return articles)
           end)
          is_Exception
          (fun e =>
             lift (log ERROR ("Error scraping Hindustan Times: " +:+ exn_msg e));;
             mret Next);
    match r with
    | Return articles => mret articles
    | Next =>
        articles ← get_local;
        lift (log INFO ("Scraped " +:+ pretty (length articles) +:+ " articles from Hindustan Times"));;
        mret articles
    end).

End WithSoup.
End HindustanTimesScaper.

(** ** The mock scrapers *)

Module MockInShortsScaper.

Definition source_name : string := "inshorts".

(** The local is the list [mock_articles]. *)
Definition scrape_articles : M World (list Article) :=
  with_local [] (
    lift (log INFO "Generating mock InShorts articles...");;
    for_in (R := unit) (range 10) (fun i =>
      now ← lift timezone_now;
      hours ← lift (random_randint 1 48);
      mock_articles ← get_local;
      set_local (mock_articles ++ [mk_Article
        ("InShorts Breaking News " +:+ pretty (i + 1) +:+ ": Important Development in Technology")
        ("This is a mock summary for InShorts article " +:+ pretty (i + 1)
         +:+ ". It contains important information about recent developments in the technology sector.")
        ("https://inshorts.com/news/article-" +:+ pretty (i + 1))
        source_name
        (minus_hours now hours)])%list;;
      mret Next);;
    mock_articles ← get_local;
    lift (log INFO ("Generated " +:+ pretty (length mock_articles) +:+ " mock articles from InShorts"));;
    mret mock_articles).

End MockInShortsScaper.

Module MockHindustanTimesScaper.

Definition source_name : string := "hindustan_times".

Definition scrape_articles : M World (list Article) :=
  with_local [] (
    lift (log INFO "Generating mock Hindustan Times articles...");;
    for_in (R := unit) (range 10) (fun i =>
      now ← lift timezone_now;
      hours ← lift (random_randint 1 48);
      mock_articles ← get_local;
      set_local (mock_articles ++ [mk_Article
        ("HT News Update " +:+ pretty (i + 1) +:+ ": Major Political Development")
        ("This is a mock summary for Hindustan Times article " +:+ pretty (i + 1)
         +:+ ". It covers significant political developments and their implications.")
        ("https://hindustantimes.com/news/article-" +:+ pretty (i + 1))
        source_name
        (minus_hours now hours)])%list;;
      mret Next);;
    mock_articles ← get_local;
    lift (log INFO ("Generated " +:+ pretty (length mock_articles) +:+ " mock articles from Hindustan Times"));;
    mret mock_articles).

End MockHindustanTimesScaper.

(** ** The registry *)

Definition scrape_inshorts : M World (list Article) :=
  MockInShortsScaper.scrape_articles.

Definition scrape_ht : M World (list Article) :=
  MockHindustanTimesScaper.scrape_articles.

Definition SCRAPERS : gmap string (M World (list Article)) :=
  <["hindustan_times" := scrape_ht]> (<["inshorts" := scrape_inshorts]> ∅).

(** [SCRAPERS.get(source)] *)
Definition get_scraper_function (source : string) : option (M World (list Article)) :=
  SCRAPERS !! source.

(** ** A model of the [bs4] tree *)

(** The tree [bs4] builds, with [find_all], [find], [get_text(strip=True)]
    and [get] as [bs4.element.Tag] defines them.  The HTML parser is not
    modelled: the instance takes it as a parameter. *)
Module bs4.

#[local] Set Warnings "-register-all".

Inductive node :=
  | NavigableString (s : string)
  | Tag (name : string) (attrs : list (string * string)) (contents : list node).

(** [tag.descendants]: the nodes below a tag, in document order. *)
Fixpoint descendants (n : node) : list node :=
  match n with
  | NavigableString _ => []
  | Tag _ _ contents =>
      (fix below (cs : list node) : list node :=
         match cs with
         | [] => []
         | c :: cs' => c :: (descendants c ++ below cs')%list
         end) contents
  end.

(** [str.isspace] on the code points below 256. *)
Definition isspace (c : ascii) : bool :=
  let n := N_of_ascii c in
  ((9 <=? n) && (n <=? 13) || (28 <=? n) && (n <=? 32) || (n =? 133) || (n =? 160))%N.

Fixpoint lstrip (s : list ascii) : list ascii :=
  match s with
  | c :: s' => if isspace c then lstrip s' else s
  | [] => []
  end.

(** [str.strip()] *)
Definition strip (s : string) : string :=
  string_of_list_ascii (rev (lstrip (rev (lstrip (list_ascii_of_string s))))).

(** The values of a [class] attribute: the maximal runs without blanks. *)
Fixpoint class_values (s cur : list ascii) : list string :=
  match s with
  | [] => match cur with [] => [] | _ => [string_of_list_ascii (rev cur)] end
  | c :: s' =>
      if isspace c then
        match cur with
        | [] => class_values s' []
        | _ => string_of_list_ascii (rev cur) :: class_values s' []
        end
      else class_values s' (c :: cur)
  end.

Fixpoint attr_lookup (key : string) (attrs : list (string * string)) : option string :=
  match attrs with
  | [] => None
  | (k, v) :: attrs' => if String.eqb k key then Some v else attr_lookup key attrs'
  end.

(** One keyword filter of [find_all]: [class] is multi-valued and matches
    on any of its values or on all of them joined by a blank; every other
    attribute matches on its whole value. *)
Definition attr_matches (attrs : list (string * string)) (filter : string * string) : bool :=
  match attr_lookup (fst filter) attrs with
  | None => false
  | Some v =>
      if String.eqb (fst filter) "class" then
        let values := class_values (list_ascii_of_string v) [] in
        existsb (String.eqb (snd filter)) values
        || String.eqb (String.concat " " values) (snd filter)
      else String.eqb v (snd filter)
  end.

Definition matches (name : string) (filters : list (string * string)) (n : node) : bool :=
  match n with
  | NavigableString _ => false
  | Tag name' attrs _ => String.eqb name' name && forallb (attr_matches attrs) filters
  end.

Definition tag_find_all (n : node) (name : string) (filters : list (string * string)) : list node :=
  List.filter (matches name filters) (descendants n).

Definition tag_find (n : node) (name : string) (filters : list (string * string)) : option node :=
  head (tag_find_all n name filters).

(** The stripped, non-empty strings below a tag, in document order. *)
Definition stripped_strings (n : node) : list string :=
  flat_map (fun d =>
    match d with
    | NavigableString s => if String.eqb (strip s) "" then [] else [strip s]
    | Tag _ _ _ => []
    end) (descendants n).

Definition tag_get_text (n : node) : string := String.concat "" (stripped_strings n).

Definition tag_get (n : node) (key default : string) : string :=
  match n with
  | NavigableString _ => default
  | Tag _ attrs _ => match attr_lookup key attrs with Some v => v | None => default end
  end.

End bs4.

(** The instance for a given HTML parser.  The methods are those of [Tag];
    on a string node they are missing, which Python reports as a
    [TypeError] or an [AttributeError]. *)
Definition dom_soup (parser : string -> Res bs4.node) : Soup bs4.node := {|
  BeautifulSoup := fun markup _ => parser markup;
  find_all := fun n name filters =>
    match n with
    | bs4.Tag _ _ _ => Ok (bs4.tag_find_all n name filters)
    | bs4.NavigableString _ => Raise (mk_exn TypeError "find() takes no keyword arguments")
    end;
  find := fun n name filters =>
    match n with
    | bs4.Tag _ _ _ => Ok (bs4.tag_find n name filters)
    | bs4.NavigableString _ => Raise (mk_exn TypeError "find() takes no keyword arguments")
    end;
  get_text := fun n => Ok (bs4.tag_get_text n);
  get := fun n key default =>
    match n with
    | bs4.Tag _ _ _ => Ok (bs4.tag_get n key default)
    | bs4.NavigableString _ => Raise (mk_exn AttributeError "'NavigableString' object has no attribute 'get'")
    end
|}.

(** ** Sample documents *)

Definition headline (txt : list bs4.node) : bs4.node :=
  bs4.Tag "span" [("itemprop", "headline")] txt.

Definition article_body (txt : string) : bs4.node :=
  bs4.Tag "div" [("itemprop", "articleBody")] [bs4.NavigableString txt].

Definition clickable (href : string) : bs4.node :=
  bs4.Tag "a" [("class", "clickable"); ("href", href)] [bs4.NavigableString "read more"].

Definition news_card (contents : list bs4.node) : bs4.node :=
  bs4.Tag "div" [("class", "news-card")] contents.

Definition page (body : list bs4.node) : bs4.node :=
  bs4.Tag "[document]" [] [bs4.Tag "html" [] [bs4.Tag "body" [] body]].

(** A page with one complete card, one card without a body and one card
    whose headline element is empty. *)
Definition inshorts_page : bs4.node :=
  page [news_card [headline [bs4.NavigableString " Rain in Pune "]; article_body "It rained."; clickable "/rain"];
        news_card [headline [bs4.NavigableString "No body"]; clickable "/nobody"];
        news_card [headline []; article_body "A body without a headline text."; clickable "/empty"]].

Definition inshorts_markup : string :=
  "<html><body>"
  +:+ "<div class='news-card'><span itemprop='headline'> Rain in Pune </span>"
  +:+ "<div itemprop='articleBody'>It rained.</div><a class='clickable' href='/rain'>read more</a></div>"
  +:+ "<div class='news-card'><span itemprop='headline'>No body</span>"
  +:+ "<a class='clickable' href='/nobody'>read more</a></div>"
  +:+ "<div class='news-card'><span itemprop='headline'></span>"
  +:+ "<div itemprop='articleBody'>A body without a headline text.</div>"
  +:+ "<a class='clickable' href='/empty'>read more</a></div>"
  +:+ "</body></html>".

(** The parser on the sample markup; any other markup is an empty page. *)
Definition sample_parser (markup : string) : Res bs4.node :=
  if String.eqb markup inshorts_markup then Ok inshorts_page else Ok (page []).

Definition sample_soup : Soup bs4.node := dom_soup sample_parser.

(** An environment in which every request is answered with the sample
    markup, the clock stands at 2024-01-01T00:00:00 and the generator
    returns zeros. *)
Definition env_sample : Env :=
  mk_Env true (fun _ url _ => Ok (mk_Response 200 "OK" url inshorts_markup))
         (fun _ => wall_us (pydatetime.midnight 2024 1 1)) (fun _ => 0%N).

(** An environment in which every request fails to connect. *)
Definition env_down : Env :=
  mk_Env true (fun _ _ _ => Raise (mk_exn ConnectionError "Connection refused"))
         (fun _ => wall_us (pydatetime.midnight 2024 1 1)) (fun _ => 0%N).

(** An environment of a project whose settings switch [USE_TZ] off. *)
Definition env_naive : Env :=
  mk_Env false (fun _ url _ => Ok (mk_Response 200 "OK" url inshorts_markup))
         (fun _ => wall_us (pydatetime.midnight 2024 1 1)) (fun _ => 0%N).

(** * Specifications *)

(** ** The retry loop *)

(** A request attempt fails at the transport level when [session.get]
    raises a [RequestException] or answers with a 4xx or 5xx status. *)
Definition transport_failure (r : Res Response) : Prop :=
  match r with
  | Raise e => is_RequestException e = true
  | Ok response => Response_bool response = false
  end.

(** ** The date normaliser *)

Import pydatetime.

(** The formats of [_parse_date], in the order of the source. *)
Definition DATE_FORMATS : list string := ["%Y-%m-%d"; "%d/%m/%Y"; "%m/%d/%Y"].

(** The specification of the normaliser: the result of the first format,
    in the given order, that [strptime] accepts. *)
Fixpoint first_matching_format (date_str : string) (formats : list string) : option datetime :=
  match formats with
  | [] => None
  | fmt :: formats' =>
      match strptime date_str fmt with
      | Ok dt => Some dt
      | Raise _ => first_matching_format date_str formats'
      end
  end.

(** The year, month and day that [strptime] reads in a text. *)
Definition date_groups (date_str fmt : string) : option (Z * Z * Z) :=
  match pattern (list_ascii_of_string fmt) with
  | inl _ => None
  | inr items =>
      match re_match items (list_ascii_of_string date_str) with
      | Some (found, []) =>
          Some (group_int "Y" 1900 found, group_int "m" 1 found, group_int "d" 1 found)
      | _ => None
      end
  end.

(** ** The mock scrapers *)

(** The [count] consecutive indices from [lo] on. *)
Definition indices (lo : Z) (count : nat) : list Z := map (fun k => lo + Z.of_nat k) (seq 0 count).

Definition inshorts_mock_fields (i : Z) : string * string * string * string :=
  ("InShorts Breaking News " +:+ pretty i +:+ ": Important Development in Technology",
   "This is a mock summary for InShorts article " +:+ pretty i
     +:+ ". It contains important information about recent developments in the technology sector.",
   "https://inshorts.com/news/article-" +:+ pretty i,
   "inshorts").

Definition ht_mock_fields (i : Z) : string * string * string * string :=
  ("HT News Update " +:+ pretty i +:+ ": Major Political Development",
   "This is a mock summary for Hindustan Times article " +:+ pretty i
     +:+ ". It covers significant political developments and their implications.",
   "https://hindustantimes.com/news/article-" +:+ pretty i,
   "hindustan_times").

(** A clock that advances by one second from one reading to the next, and
    a generator that counts. *)
Definition env_ticking : Env :=
  mk_Env true (fun _ _ _ => Raise (mk_exn ConnectionError "Connection refused"))
         (fun k => wall_us (midnight 2024 1 1) + Z.of_nat k * 1000000)
         (fun k => N.of_nat k).

(** ** The extractors *)

#[global] Instance Res_ret : MRet Res := fun A a => Ok a.
#[global] Instance Res_bind : MBind Res :=
  fun A B k r => match r with Ok a => k a | Raise e => Raise e end.

(** The body of the loop of [scrape_articles], for an extractor. *)
Definition scrape_step {E} (extract : E -> M World (option Article)) (card : E)
    : M (list Article * World) (flow (list Article)) :=
  try_except
    (article_data ← lift (extract card);
     match article_data with
     | Some article_data =>
         articles ← get_local;
         set_local (articles ++ [article_data])%list;;
         mret Next
     | None => mret Next
     end)
    is_Exception
    (fun e =>
       lift (log ERROR ("Error extracting article data: " +:+ exn_msg e));;
       mret Next).

(** What one container contributes: its text fields, nothing, or the
    exception an accessor raised. *)
Definition contribution : Type := Res (option (string * string * string)).

Definition record_of (source_name : string) (c : contribution)
    : option (string * string * string * string) :=
  match c with
  | Ok (Some (title, summary, url)) => Some (title, summary, url, source_name)
  | _ => None
  end.

Definition error_lines (c : contribution) : list (level * string) :=
  match c with
  | Raise e => [(ERROR, "Error extracting article data: " +:+ exn_msg e)]
  | Ok _ => []
  end.

Section Containers.
Context {E : Type} `{Soup E}.

Definition inshorts_contribution (card : E) : contribution :=
  title_elem ← find card "span" [("itemprop", "headline")];
  summary_elem ← find card "div" [("itemprop", "articleBody")];
  url_elem ← find card "a" [("class", "clickable")];
  match title_elem, summary_elem, url_elem with
  | Some title_elem, Some summary_elem, Some url_elem =>
      title ← get_text title_elem;
      summary ← get_text summary_elem;
      url ← get url_elem "href" "";
      mret (Some (title, summary, url))
  | _, _, _ => mret None
  end.

Definition ht_contribution (element : E) : contribution :=
  title_elem ← find element "h3" [("class", "hdg3")];
  summary_elem ← find element "p" [("class", "anch")];
  link_elem ← find element "a" [];
  match title_elem, link_elem with
  | Some title_elem, Some link_elem =>
      summary ← match summary_elem with
                | Some summary_elem => get_text summary_elem
                | None => get_text title_elem
                end;
      title ← get_text title_elem;
      url ← get link_elem "href" "";
      mret (Some (title, summary, url))
  | _, _ => mret None
  end.

End Containers.

(** An extractor follows a contribution when it never raises, returns the
    article of the contributed fields and logs the contributed error. *)
Definition follows {E} (extract : E -> M World (option Article))
    (source_name : string) (contrib : E -> contribution) : Prop :=
  forall card env w, exists article w',
    extract card env w = (Ok article, w')
    /\ option_map fields article = record_of source_name (contrib card)
    /\ logged w' = (logged w ++ error_lines (contrib card))%list.

(** Unfolds the operations of the monad in the goal. *)
Ltac run :=
  cbv beta iota delta [mbind M_bind bind mret M_ret ret eval raise try_except lift
                       get_local set_local with_local Res_bind Res_ret is_Exception].

Ltac settle :=
  eexists _, _; split; [reflexivity | split; [reflexivity | ]];
  first [reflexivity | symmetry; apply app_nil_r].

(** The common shape of the two [scrape_articles]. *)
Definition scrape_with {E} `{Soup E} (label url cls : string)
    (extract : E -> M World (option Article)) : M World (list Article) :=
  with_local [] (
    lift (log INFO ("Starting " +:+ label +:+ " scraping..."));;
    r ← try_except
          (response ← lift (BaseScraper._make_request url 10);
           match response with
           | Some response =>
               if negb (Response_bool response) then
                 articles ← get_local; mret (Return articles)
               else
                 soup ← eval (BeautifulSoup (content response) "lxml");
                 containers ← eval (find_all soup "div" [("class", cls)]);
                 for_in (take 20 containers) (scrape_step extract)
           | None => articles ← get_local; mret (Return articles)
           end)
          is_Exception
          (fun e =>
             lift (log ERROR ("Error scraping " +:+ label +:+ ": " +:+ exn_msg e));;
             mret Next);
    match r with
    | Return articles => mret articles
    | Next =>
        articles ← get_local;
        lift (log INFO ("Scraped " +:+ pretty (length articles) +:+ " articles from " +:+ label));;
        mret articles
    end).

Ltac run_all :=
  cbv beta iota delta [mbind M_bind bind mret M_ret ret eval raise try_except lift
                       get_local set_local with_local Res_bind Res_ret is_Exception
                       log fst snd negb].

(** ** The two sites *)

Inductive site := InShorts | HindustanTimes.

Definition site_label (s : site) : string :=
  match s with InShorts => "InShorts" | HindustanTimes => "Hindustan Times" end.

Definition site_name (s : site) : string :=
  match s with
  | InShorts => InShortsScaper.source_name
  | HindustanTimes => HindustanTimesScaper.source_name
  end.

Definition site_url (s : site) : string :=
  match s with
  | InShorts => InShortsScaper.base_url
  | HindustanTimes => HindustanTimesScaper.base_url
  end.

(** The class of the containers of a site. *)
Definition site_class (s : site) : string :=
  match s with InShorts => "news-card" | HindustanTimes => "cartHolder" end.

(** The selector of the title element, and those of all required elements. *)
Definition title_selector (s : site) : string * list (string * string) :=
  match s with
  | InShorts => ("span", [("itemprop", "headline")])
  | HindustanTimes => ("h3", [("class", "hdg3")])
  end.

Definition required_selectors (s : site) : list (string * list (string * string)) :=
  match s with
  | InShorts => [("span", [("itemprop", "headline")]);
                 ("div", [("itemprop", "articleBody")]);
                 ("a", [("class", "clickable")])]
  | HindustanTimes => [("h3", [("class", "hdg3")]); ("a", [])]
  end.

Section Sites.
Context {E : Type} `{Soup E}.

Definition site_scrape (s : site) : M World (list Article) :=
  match s with
  | InShorts => InShortsScaper.scrape_articles
  | HindustanTimes => HindustanTimesScaper.scrape_articles
  end.

Definition site_extract (s : site) : E -> M World (option Article) :=
  match s with
  | InShorts => InShortsScaper._extract_article_data
  | HindustanTimes => HindustanTimesScaper._extract_article_data
  end.

Definition site_contribution (s : site) : E -> contribution :=
  match s with
  | InShorts => inshorts_contribution
  | HindustanTimes => ht_contribution
  end.

(** The record a container yields, if any. *)
Definition site_record (s : site) (card : E) : option (string * string * string * string) :=
  record_of (site_name s) (site_contribution s card).

(** The scrape of [s] from the world [w] receives a response, leaving the
    world [w1], and finds the containers [found] in its document. *)
Definition fetches (s : site) (env : Env) (w : World) (found : list E) (w1 : World) : Prop :=
  exists response soup,
    BaseScraper._make_request (site_url s) 10 env
      (snd (log INFO ("Starting " +:+ site_label s +:+ " scraping...") env w))
    = (Ok (Some response), w1)
    /\ BeautifulSoup (content response) "lxml" = Ok soup
    /\ find_all soup "div" [("class", site_class s)] = Ok found.

(** A required element is not found in the container. *)
Definition lacks_required (s : site) (card : E) : Prop :=
  exists sel, In sel (required_selectors s) /\ find card (fst sel) (snd sel) = Ok None.

End Sites.

(** ** More sample documents *)

Definition cart_holder (contents : list bs4.node) : bs4.node :=
  bs4.Tag "div" [("class", "cartHolder listView")] contents.

(** A Hindustan Times container with a title and a link and no summary. *)
Definition ht_card_no_summary : bs4.node :=
  cart_holder [bs4.Tag "h3" [("class", "hdg3")]
                 [bs4.Tag "a" [("href", "/india/monsoon")] [bs4.NavigableString "Monsoon arrives"]]].

(** An InShorts card with a headline and a link and no body. *)
Definition inshorts_card_no_body : bs4.node :=
  news_card [headline [bs4.NavigableString "No body"]; clickable "/nobody"].

(** A complete card with the number [i] in its texts. *)
Definition numbered_card (i : Z) : bs4.node :=
  news_card [headline [bs4.NavigableString ("Story " +:+ pretty i)];
             article_body ("Body " +:+ pretty i);
             clickable ("/story-" +:+ pretty i)].

(** A page of [count] complete cards, numbered from 1. *)
Definition long_page (count : nat) : bs4.node := page (map numbered_card (indices 1 count)).

(** A parser and an environment that serve a given page. *)
Definition serving_soup (document : bs4.node) : Soup bs4.node := dom_soup (fun _ => Ok document).

Definition env_online : Env :=
  mk_Env true (fun _ url _ => Ok (mk_Response 200 "OK" url "<html>"))
         (fun _ => wall_us (pydatetime.midnight 2024 1 1)) (fun _ => 0%N).

(** A double of the tree whose [get_text] fails on an element that
    carries the attribute [data-broken]. *)
Definition fragile_soup (document : bs4.node) : Soup bs4.node := {|
  BeautifulSoup := fun _ _ => Ok document;
  find_all := @find_all _ (serving_soup document);
  find := @find _ (serving_soup document);
  get_text := fun n =>
    match n with
    | bs4.Tag _ attrs _ =>
        match bs4.attr_lookup "data-broken" attrs with
        | Some _ => Raise (mk_exn RuntimeError "broken element")
        | None => Ok (bs4.tag_get_text n)
        end
    | bs4.NavigableString _ => Ok (bs4.tag_get_text n)
    end;
  get := @get _ (serving_soup document)
|}.

Definition broken_card : bs4.node :=
  news_card [bs4.Tag "span" [("itemprop", "headline"); ("data-broken", "1")] [];
             article_body "Lost."; clickable "/lost"].

Definition fragile_page : bs4.node :=
  page [numbered_card 1; broken_card; numbered_card 2].

Definition ht_title_elem : bs4.node :=
  bs4.Tag "h3" [("class", "hdg3")]
    [bs4.Tag "a" [("href", "/india/monsoon")] [bs4.NavigableString "Monsoon arrives"]].

Definition ht_link_elem : bs4.node :=
  bs4.Tag "a" [("href", "/india/monsoon")] [bs4.NavigableString "Monsoon arrives"].

(** ** One attempt of the retry loop *)

(** The body of the loop of [_make_request]. *)
Definition request_attempt (url : string) (timeout : Z) (attempt : Z)
    : M World (flow (option Response)) :=
  try_except
    (response ← session_get_url url timeout;
     eval (raise_for_status response);;
     mret (Return (Some response)))
    is_RequestException
    (fun e =>
       log WARNING ("Request attempt " +:+ pretty (attempt + 1) +:+ " failed for "
                    +:+ url +:+ ": " +:+ exn_msg e);;
       if attempt <? Z.of_nat 3 - 1 then
         jitter ← random_uniform 0 1;
         let delay := float_add (float_of_int (BaseScraper.backoff 1 attempt)) jitter in
         time_sleep delay;;
         mret Next
       else
         log ERROR ("All retry attempts failed for " +:+ url);;
         mret (Return None)).

(** The warning of a failed attempt and the delay slept after it. *)
Definition warning_line (url : string) (attempt : Z) (e : exn) : level * string :=
  (WARNING, "Request attempt " +:+ pretty (attempt + 1) +:+ " failed for "
            +:+ url +:+ ": " +:+ exn_msg e).

Definition retry_delay (env : Env) (w : World) (attempt : Z) : Q :=
  float_add (float_of_int (BaseScraper.backoff 1 attempt))
    (uniform_of 0 1 (random_of_bits (getrandbits env (draws w)))).

(** The world after a failed attempt that is retried, and after the last. *)
Definition after_retry (env : Env) (w : World) (url : string) (attempt : Z) (e : exn) : World :=
  mk_World (S (gets w)) (ticks w) (S (draws w))
    (slept w ++ [retry_delay env w attempt]) (logged w ++ [warning_line url attempt e]).

Definition after_give_up (w : World) (url : string) (attempt : Z) (e : exn) : World :=
  mk_World (S (gets w)) (ticks w) (draws w) (slept w)
    ((logged w ++ [warning_line url attempt e])
     ++ [(ERROR, "All retry attempts failed for " +:+ url)]).

(** The exception that makes an attempt fail at the transport level. *)
Definition failure_of (r : Res Response) : option exn :=
  match r with
  | Raise e => if is_RequestException e then Some e else None
  | Ok response =>
      match raise_for_status response with
      | Raise e => Some e
      | Ok _ => None
      end
  end.

Definition env_flaky (failures : nat) : Env :=
  mk_Env true
    (fun k url _ => if (k <? failures)%nat then Raise (mk_exn Timeout "Read timed out")
                    else Ok (mk_Response 200 "OK" url "<html>"))
    (fun _ => wall_us (midnight 2024 1 1)) (fun _ => 0%N).

Definition env_broken_url : Env :=
  mk_Env true (fun _ _ _ => Raise (mk_exn ValueError "Invalid header value"))
    (fun _ => wall_us (midnight 2024 1 1)) (fun _ => 0%N).

(** ** The texts a format can match *)

(** The least and the greatest number of characters an item matches. *)
Fixpoint shortest (alts : list (list cclass)) : nat :=
  match alts with
  | [] => 0
  | [alt] => length alt
  | alt :: alts' => Nat.min (length alt) (shortest alts')
  end.

Fixpoint longest (alts : list (list cclass)) : nat :=
  match alts with
  | [] => 0
  | alt :: alts' => Nat.max (length alt) (longest alts')
  end.

Definition item_min (i : item) : nat :=
  match i with Lit _ => 1 | Group _ alts => shortest alts end.

Definition item_max (i : item) : nat :=
  match i with Lit _ => 1 | Group _ alts => longest alts end.

Definition items_min (items : list item) : nat := list_sum (map item_min items).
Definition items_max (items : list item) : nat := list_sum (map item_max items).

(** ** Writing a date *)

(** The character of a decimal digit, and a number in two and in four
    digits with leading zeros. *)
Definition dchar (k : Z) : ascii := ascii_of_N (Z.to_N (48 + k)).

Definition two_digits (n : Z) : list ascii := [dchar (n / 10); dchar (n mod 10)].

Definition four_digits (n : Z) : list ascii :=
  [dchar (n / 1000); dchar (n / 100 mod 10); dchar (n / 10 mod 10); dchar (n mod 10)].

(** A date written as YYYY-MM-DD, and as two numbers and a year with
    slashes between them. *)
Definition iso_text (year month day : Z) : string :=
  string_of_list_ascii (four_digits year ++ "-"%char :: two_digits month ++ "-"%char :: two_digits day).

Definition slash_text (first second year : Z) : string :=
  string_of_list_ascii (two_digits first ++ "/"%char :: two_digits second ++ "/"%char :: four_digits year).

(** A date of the calendar that [datetime] accepts. *)
Definition valid_date (year month day : Z) : Prop :=
  1 <= year <= 9999 /\ 1 <= month <= 12 /\ 1 <= day <= _days_in_month year month.

Definition year_alts : list (list cclass) := [[digit; digit; digit; digit]].

Definition month_alts : list (list cclass) :=
  [[Chr "1"; Rng "0" "2"]; [Chr "0"; Rng "1" "9"]; [Rng "1" "9"]].

Definition day_alts : list (list cclass) :=
  [[Chr "3"; Rng "0" "1"]; [Rng "1" "2"; digit]; [Chr "0"; Rng "1" "9"];
   [Rng "1" "9"]; [Chr " "; Rng "1" "9"]].

(** ** The effects of a scrape *)

(** The world after a line is logged. *)
Definition logging (lv : level) (msg : string) (w : World) : World :=
  mk_World (gets w) (ticks w) (draws w) (slept w) (logged w ++ [(lv, msg)]).

(** The timestamp of [a] is a reading of the clock, the k-th for a [k]
    from [lo] up to and excluding [hi], less a whole number of hours from
    1 to [span]; it carries UTC exactly when [USE_TZ] is on. *)
Definition stamped (env : Env) (lo hi : nat) (span : Z) (a : Article) : Prop :=
  exists k hours,
    (lo <= k < hi)%nat /\ 1 <= hours <= span
    /\ published_at a
       = minus_hours (mk_datetime (wall_clock env k) (if USE_TZ env then Some UTC else None)) hours.

(** An extractor that returns normally, sends nothing, does not sleep, and
    reads the clock and draws once, for the timestamp, exactly when it
    returns a record. *)
Definition quiet {E} (extract : E -> M World (option Article)) : Prop :=
  forall card env w, exists article w',
    extract card env w = (Ok article, w')
    /\ gets w' = gets w /\ slept w' = slept w
    /\ match article with
       | Some a => ticks w' = S (ticks w) /\ draws w' = S (draws w)
                   /\ stamped env (ticks w) (S (ticks w)) 24 a
       | None => ticks w' = ticks w /\ draws w' = draws w
       end.

(** ** [get_scraper_node] *)

(** [hash] is Python's hash of a string, which differs from one process
    to the next; [%] with a positive modulus is [Z.modulo]. *)
Definition get_scraper_node (hash : string -> Z) (source : string) : M World string :=
  let node_id := hash source mod 2 in
  log INFO ("Source '" +:+ source +:+ "' assigned to node_" +:+ pretty node_id);;
  mret ("node_" +:+ pretty node_id).

(** ** The mock scrapers *)

(** The body of the loop of a mock scraper that builds its articles with
    [make]. *)
Definition mock_step (make : Z -> datetime -> Article) (i : Z)
    : M (list Article * World) (flow unit) :=
  now ← lift timezone_now;
  hours ← lift (random_randint 1 48);
  mock_articles ← get_local;
  set_local (mock_articles ++ [make i (minus_hours now hours)])%list;;
  mret Next.

Definition inshorts_mock_article (i : Z) (published : datetime) : Article :=
  mk_Article
    ("InShorts Breaking News " +:+ pretty (i + 1) +:+ ": Important Development in Technology")
    ("This is a mock summary for InShorts article " +:+ pretty (i + 1)
     +:+ ". It contains important information about recent developments in the technology sector.")
    ("https://inshorts.com/news/article-" +:+ pretty (i + 1))
    MockInShortsScaper.source_name
    published.

Definition ht_mock_article (i : Z) (published : datetime) : Article :=
  mk_Article
    ("HT News Update " +:+ pretty (i + 1) +:+ ": Major Political Development")
    ("This is a mock summary for Hindustan Times article " +:+ pretty (i + 1)
     +:+ ". It covers significant political developments and their implications.")
    ("https://hindustantimes.com/news/article-" +:+ pretty (i + 1))
    MockHindustanTimesScaper.source_name
    published.

(** An environment in which the server answers every request with 503. *)
Definition env_unavailable : Env :=
  mk_Env true (fun _ url _ => Ok (mk_Response 503 "Service Unavailable" url ""))
    (fun _ => wall_us (midnight 2024 1 1)) (fun _ => 0%N).

(** * Properties *)

(** ** Running a computation *)

Lemma run_bind {S A B} (m : M S A) (k : A -> M S B) env s :
  (m ≫= k) env s =
  match m env s with
  | (Ok a, s') => k a env s'
  | (Raise e, s') => (Raise e, s')
  end.
Proof. reflexivity. Qed.

Lemma run_bind_Ok {S A B} (m : M S A) (k : A -> M S B) env s a s' :
  m env s = (Ok a, s') -> (m ≫= k) env s = k a env s'.
Proof. intros Hm. rewrite run_bind, Hm. reflexivity. Qed.

Lemma run_bind_Raise {S A B} (m : M S A) (k : A -> M S B) env s e s' :
  m env s = (Raise e, s') -> (m ≫= k) env s = (Raise e, s').
Proof. intros Hm. rewrite run_bind, Hm. reflexivity. Qed.

Lemma run_try_Ok {S A} (m : M S A) catches h env s a s' :
  m env s = (Ok a, s') -> try_except m catches h env s = (Ok a, s').
Proof. intros Hm. unfold try_except. rewrite Hm. reflexivity. Qed.

Lemma run_try_Raise {S A} (m : M S A) catches h env s e s' :
  m env s = (Raise e, s') -> catches e = true ->
  try_except m catches h env s = h e env s'.
Proof. intros Hm Hc. unfold try_except. rewrite Hm, Hc. reflexivity. Qed.

(** ** The retry loop *)

Lemma random_of_bits_range bits : (0 <= random_of_bits bits)%Q /\ (random_of_bits bits < 1)%Q.
Proof.
  unfold random_of_bits, Qle, Qlt. simpl.
  assert (Hm : (bits mod 2 ^ 53 < 2 ^ 53)%N) by (apply N.mod_lt; discriminate).
  assert (Hp : Z.pos (2 ^ 53) = Z.of_N (2 ^ 53)) by reflexivity.
  rewrite Hp. generalize dependent (bits mod 2 ^ 53)%N. generalize (2 ^ 53)%N.
  intros; lia.
Qed.

Lemma rne_bounds n d lo hi :
  0 < d -> lo * d <= n <= hi * d -> lo <= rne n d <= hi.
Proof.
  intros Hd Hn. unfold rne.
  pose proof (Z.div_mod n d ltac:(lia)) as Hdm.
  pose proof (Z.mod_pos_bound n d Hd) as Hr.
  set (q := n / d) in *. set (r := n mod d) in *.
  destruct (2 * r <? d) eqn:H1; [nia |].
  apply Z.ltb_ge in H1.
  destruct (d <? 2 * r) eqn:H2; [nia |].
  destruct (Z.even q); nia.
Qed.

Lemma binade_le n d : 0 < n -> 0 < d -> n < 2 ^ 53 * d -> binade n d <= 52.
Proof.
  intros Hn Hd Hlt. unfold binade.
  pose proof (Z.log2_spec n Hn) as [Hn1 _].
  pose proof (Z.log2_spec d Hd) as [_ Hd2].
  pose proof (Z.log2_nonneg n) as Hln. pose proof (Z.log2_nonneg d) as Hld.
  assert (He0 : Z.log2 n - Z.log2 d <= 53).
  { assert (Hpow : 2 ^ Z.log2 n < 2 ^ (54 + Z.log2 d)).
    { replace (54 + Z.log2 d) with (53 + Z.succ (Z.log2 d)) by lia.
      rewrite Z.pow_add_r by lia. nia. }
    apply Z.pow_lt_mono_r_iff in Hpow; lia. }
  set (e0 := Z.log2 n - Z.log2 d) in *.
  assert (Hcase : e0 <= 52 \/ e0 = 53) by lia.
  destruct Hcase as [Hsmall | ->].
  - destruct (if 0 <=? e0 then _ else _); lia.
  - change (0 <=? 53) with true. cbv iota.
    destruct (2 ^ 53 * d <=? n) eqn:Hc.
    + apply Z.leb_le in Hc. exfalso. apply (Z.lt_irrefl n). eapply Z.lt_le_trans; eassumption.
    + reflexivity.
Qed.

Lemma binary64_bounds x a b :
  0 <= a -> b < 2 ^ 53 ->
  (inject_Z a <= x)%Q -> (x <= inject_Z b)%Q ->
  (inject_Z a <= binary64 x)%Q /\ (binary64 x <= inject_Z b)%Q.
Proof.
  intros Ha Hb Hlo Hhi. destruct x as [n d]. unfold Qle in Hlo, Hhi. simpl in Hlo, Hhi.
  unfold binary64. cbn [Qnum Qden].
  assert (Hn : 0 <= n) by nia.
  rewrite (Z.abs_eq n Hn).
  destruct (n =? 0) eqn:Hz.
  - apply Z.eqb_eq in Hz. subst n. unfold Qle. simpl. split; nia.
  - apply Z.eqb_neq in Hz.
    replace (n <? 0) with false by (symmetry; apply Z.ltb_ge; lia).
    pose proof (binade_le n (Z.pos d) ltac:(lia) ltac:(lia) ltac:(nia)) as He.
    replace (0 <=? 52 - binade n (Z.pos d)) with true by (symmetry; apply Z.leb_le; lia).
    set (s := 52 - binade n (Z.pos d)) in *.
    assert (Hp : 0 < 2 ^ s) by (apply Z.pow_pos_nonneg; lia).
    pose proof (rne_bounds (n * 2 ^ s) (Z.pos d) (a * 2 ^ s) (b * 2 ^ s) ltac:(lia) ltac:(nia))
      as [Hm1 Hm2].
    unfold Qle. simpl. rewrite Z2Pos.id by exact Hp. split; lia.
Qed.

Lemma uniform_0_1_range u :
  (0 <= u)%Q -> (u <= 1)%Q ->
  (0 <= uniform_of 0 1 u)%Q /\ (uniform_of 0 1 u <= 1)%Q.
Proof.
  intros H0 H1. unfold uniform_of, float_add, float_mul.
  assert (Hone : (float_of_int (1 - 0) == 1)%Q) by reflexivity.
  assert (Hzero : (float_of_int 0 == 0)%Q) by reflexivity.
  assert (Hmul : (inject_Z 0 <= binary64 (float_of_int (1 - 0) * u))%Q
                 /\ (binary64 (float_of_int (1 - 0) * u) <= inject_Z 1)%Q).
  { apply binary64_bounds; [lia | reflexivity | |].
    - rewrite Hone, Qmult_1_l. exact H0.
    - rewrite Hone, Qmult_1_l. exact H1. }
  destruct Hmul as [Hm0 Hm1].
  apply (binary64_bounds _ 0 1); [lia | reflexivity | |].
  - rewrite Hzero, Qplus_0_l. exact Hm0.
  - rewrite Hzero, Qplus_0_l. exact Hm1.
Qed.

Lemma delay_range (z : Z) (jitter : Q) :
  0 <= z -> z + 1 < 2 ^ 53 ->
  (0 <= jitter)%Q -> (jitter <= 1)%Q ->
  (inject_Z z <= float_add (float_of_int z) jitter)%Q
  /\ (float_add (float_of_int z) jitter <= inject_Z (z + 1))%Q.
Proof.
  intros Hz Hb H0 H1.
  assert (Hexact : (inject_Z z <= float_of_int z)%Q /\ (float_of_int z <= inject_Z z)%Q).
  { unfold float_of_int. apply binary64_bounds; [lia | lia | apply Qle_refl | apply Qle_refl]. }
  destruct Hexact as [He1 He2].
  unfold float_add. apply binary64_bounds; [lia | lia | |].
  - rewrite <- (Qplus_0_r (inject_Z z)). apply Qplus_le_compat; assumption.
  - rewrite inject_Z_plus. apply Qplus_le_compat; assumption.
Qed.

Lemma retry_delay_between env w attempt :
  0 <= attempt <= 1 ->
  (inject_Z (BaseScraper.backoff 1 attempt) <= retry_delay env w attempt)%Q
  /\ (retry_delay env w attempt <= inject_Z (BaseScraper.backoff 1 attempt + 1))%Q.
Proof.
  intros Ha. unfold retry_delay.
  destruct (random_of_bits_range (getrandbits env (draws w))) as [H0 H1].
  destruct (uniform_0_1_range _ H0 (Qlt_le_weak _ _ H1)) as [Hu0 Hu1].
  assert (Hcase : attempt = 0 \/ attempt = 1) by lia.
  destruct Hcase as [-> | ->]; apply delay_range; try assumption; reflexivity || discriminate.
Qed.

Lemma backoff_increasing base_delay attempt :
  0 < base_delay -> 0 <= attempt ->
  BaseScraper.backoff base_delay attempt < BaseScraper.backoff base_delay (attempt + 1).
Proof.
  intros Hb Ha. unfold BaseScraper.backoff.
  rewrite Z.pow_add_r by lia.
  assert (0 < 2 ^ attempt) by (apply Z.pow_pos_nonneg; lia).
  nia.
Qed.

(** ** The retry loop, attempt by attempt *)

Lemma make_request_loop url timeout :
  BaseScraper._make_request url timeout
  = (r ← for_in (range 3) (request_attempt url timeout);
     match r with
     | Return v => mret v
     | Next => mret None
     end).
Proof. reflexivity. Qed.

Lemma raise_for_status_class response e :
  raise_for_status response = Raise e -> is_RequestException e = true.
Proof.
  unfold raise_for_status.
  destruct (_ && _); [intros [= <-]; reflexivity |].
  destruct (_ && _); [intros [= <-]; reflexivity | discriminate].
Qed.

Lemma transport_failure_of r : transport_failure r -> exists e, failure_of r = Some e.
Proof.
  destruct r as [response | e]; simpl.
  - unfold Response_bool. destruct (raise_for_status response) as [| e]; [discriminate |].
    intros _. exists e. reflexivity.
  - intros ->. exists e. reflexivity.
Qed.

Lemma attempt_failed env w url timeout attempt e :
  failure_of (session_get env (gets w) url timeout) = Some e ->
  request_attempt url timeout attempt env w =
    if attempt <? 2 then (Ok Next, after_retry env w url attempt e)
    else (Ok (Return None), after_give_up w url attempt e).
Proof.
  unfold request_attempt, failure_of. run. unfold session_get_url.
  change (Z.of_nat 3 - 1) with 2.
  destruct (session_get env (gets w) url timeout) as [response | e'].
  - destruct (raise_for_status response) as [| e'] eqn:Hs; [discriminate |].
    intros [= ->]. rewrite (raise_for_status_class _ _ Hs).
    destruct (attempt <? 2); reflexivity.
  - destruct (is_RequestException e') eqn:Hr; [| discriminate].
    intros [= ->]. destruct (attempt <? 2); reflexivity.
Qed.

Lemma attempt_succeeded env w url timeout attempt response :
  session_get env (gets w) url timeout = Ok response ->
  Response_bool response = true ->
  request_attempt url timeout attempt env w = (Ok (Return (Some response)), sent w).
Proof.
  unfold request_attempt, Response_bool. run. unfold session_get_url.
  intros -> Hok. destruct (raise_for_status response); [reflexivity | discriminate].
Qed.

Lemma attempt_crashed env w url timeout attempt e :
  session_get env (gets w) url timeout = Raise e ->
  is_RequestException e = false ->
  request_attempt url timeout attempt env w = (Raise e, sent w).
Proof.
  unfold request_attempt. run. unfold session_get_url.
  intros -> ->. reflexivity.
Qed.

(** What one attempt can do. *)
Lemma attempt_cases env w url timeout attempt :
  (exists response,
     session_get env (gets w) url timeout = Ok response /\ Response_bool response = true
     /\ request_attempt url timeout attempt env w = (Ok (Return (Some response)), sent w))
  \/ (exists e,
        session_get env (gets w) url timeout = Raise e /\ is_RequestException e = false
        /\ request_attempt url timeout attempt env w = (Raise e, sent w))
  \/ (exists e,
        failure_of (session_get env (gets w) url timeout) = Some e
        /\ request_attempt url timeout attempt env w =
             if attempt <? 2 then (Ok Next, after_retry env w url attempt e)
             else (Ok (Return None), after_give_up w url attempt e)).
Proof.
  destruct (failure_of (session_get env (gets w) url timeout)) as [e |] eqn:Hf.
  - right. right. exists e. split; [reflexivity | apply attempt_failed, Hf].
  - unfold failure_of in Hf.
    destruct (session_get env (gets w) url timeout) as [response | e] eqn:Hg.
    + left. exists response.
      assert (Hok : Response_bool response = true).
      { unfold Response_bool. destruct (raise_for_status response); [reflexivity | discriminate]. }
      split; [reflexivity |]. split; [exact Hok |]. apply attempt_succeeded; assumption.
    + right. left. exists e.
      destruct (is_RequestException e) eqn:Hr; [discriminate |].
      split; [reflexivity |]. split; [reflexivity |]. apply attempt_crashed; assumption.
Qed.

Lemma for_in_cons {S X R} (x : X) (xs : list X) (body : X -> M S (flow R)) env s :
  for_in (x :: xs) body env s =
  match body x env s with
  | (Ok Next, s') => for_in xs body env s'
  | (Ok (Return v), s') => (Ok (Return v), s')
  | (Raise e, s') => (Raise e, s')
  end.
Proof.
  simpl for_in. rewrite run_bind. destruct (body x env s) as [[[| v] | e] s']; reflexivity.
Qed.

Ltac failed_attempt_at env w url timeout attempt Hfail :=
  rewrite for_in_cons;
  let e := fresh "e" in
  let He := fresh "He" in
  destruct (transport_failure_of _ Hfail) as (e & He);
  rewrite (attempt_failed env w url timeout attempt e He);
  cbv beta iota.

Lemma make_request_exhausted (url : string) (timeout : Z) (env : Env) (w : World) :
  (forall k, (k < 3)%nat -> transport_failure (session_get env (k + gets w)%nat url timeout)) ->
  exists e1 e2 e3,
    failure_of (session_get env (0 + gets w)%nat url timeout) = Some e1
    /\ failure_of (session_get env (1 + gets w)%nat url timeout) = Some e2
    /\ failure_of (session_get env (2 + gets w)%nat url timeout) = Some e3
    /\ BaseScraper._make_request url timeout env w
       = (Ok None,
          after_give_up (after_retry env (after_retry env w url 0 e1) url 1 e2) url 2 e3).
Proof.
  intros Hfail.
  rewrite make_request_loop, run_bind. change (range 3) with [0; 1; 2].
  failed_attempt_at env w url timeout 0 (Hfail 0%nat ltac:(lia)).
  change (0 <? 2) with true. cbv iota.
  set (w1 := after_retry env w url 0 e).
  failed_attempt_at env w1 url timeout 1 (Hfail 1%nat ltac:(lia)).
  change (1 <? 2) with true. cbv iota.
  set (w2 := after_retry env w1 url 1 e0).
  failed_attempt_at env w2 url timeout 2 (Hfail 2%nat ltac:(lia)).
  change (2 <? 2) with false. cbv iota.
  exists e, e0, e1. repeat split; assumption.
Qed.

Lemma failure_of_class r e : failure_of r = Some e -> is_RequestException e = true.
Proof.
  unfold failure_of. destruct r as [response | e'].
  - destruct (raise_for_status response) eqn:Hs; [discriminate |].
    intros [= <-]. eapply raise_for_status_class, Hs.
  - destruct (is_RequestException e') eqn:Hc; [| discriminate]. intros [= <-]. exact Hc.
Qed.

(** C1. When every attempt fails at the transport level, [_make_request]
    sends exactly three requests and returns [None] instead of raising.  It
    sleeps twice: for the floats [1 * 2^0 + j0] and [1 * 2^1 + j1], the
    jitters being the values of [random.uniform(0, 1)] at the two draws.
    Without the jitter the delays are [1] and [2], and the term
    [base_delay * 2^attempt] increases strictly with the attempt.  With
    the jitter, and the rounding of the float sum, the first delay lies
    between 1 and 2 and the second between 2 and 3, bounds included. *)
Theorem make_request_exhausts_retries (env : Env) (w : World) (url : string) (timeout : Z) :
  (forall k, (k < 3)%nat -> transport_failure (session_get env (k + gets w)%nat url timeout)) ->
  exists w' d0 d1,
    BaseScraper._make_request url timeout env w = (Ok None, w')
    /\ gets w' = (3 + gets w)%nat
    /\ slept w' = (slept w ++ [d0; d1])%list
    /\ d0 = float_add (float_of_int (1 * 2 ^ 0))
              (uniform_of 0 1 (random_of_bits (getrandbits env (draws w))))
    /\ d1 = float_add (float_of_int (1 * 2 ^ 1))
              (uniform_of 0 1 (random_of_bits (getrandbits env (S (draws w)))))
    /\ (float_add (float_of_int (1 * 2 ^ 0)) 0 == 1)%Q
    /\ (float_add (float_of_int (1 * 2 ^ 1)) 0 == 2)%Q
    /\ (forall base_delay attempt,
          BaseScraper.backoff base_delay attempt = base_delay * 2 ^ attempt)
    /\ (forall attempt, 0 <= attempt ->
          BaseScraper.backoff 1 attempt < BaseScraper.backoff 1 (attempt + 1))
    /\ ((1 <= d0)%Q /\ (d0 <= 2)%Q)
    /\ ((2 <= d1)%Q /\ (d1 <= 3)%Q).
Proof.
  intros Hfail.
  destruct (make_request_exhausted url timeout env w Hfail)
    as (e1 & e2 & e3 & _ & _ & _ & Hrun).
  set (w1 := after_retry env w url 0 e1) in *.
  exists (after_give_up (after_retry env w1 url 1 e2) url 2 e3),
         (retry_delay env w 0), (retry_delay env w1 1).
  split; [exact Hrun |]. split; [reflexivity |].
  split; [unfold w1, after_give_up, after_retry; cbn [slept]; rewrite <- app_assoc; reflexivity |].
  split; [reflexivity |]. split; [reflexivity |].
  split; [reflexivity |]. split; [reflexivity |].
  split; [intros base_delay attempt; reflexivity |].
  split; [intros attempt Ha; apply backoff_increasing; lia |].
  split.
  - apply (retry_delay_between env w 0). lia.
  - apply (retry_delay_between env w1 1). lia.
Qed.

Lemma make_request_exhausts_retries_witness :
  (forall k, (k < 3)%nat ->
     transport_failure (session_get env_down (k + gets world0)%nat "https://inshorts.com/en/read" 10))
  /\ exists w' d0 d1,
       BaseScraper._make_request "https://inshorts.com/en/read" 10 env_down world0 = (Ok None, w')
       /\ gets w' = (3 + gets world0)%nat
       /\ slept w' = (slept world0 ++ [d0; d1])%list
       /\ d0 = float_add (float_of_int (1 * 2 ^ 0))
                 (uniform_of 0 1 (random_of_bits (getrandbits env_down (draws world0))))
       /\ d1 = float_add (float_of_int (1 * 2 ^ 1))
                 (uniform_of 0 1 (random_of_bits (getrandbits env_down (S (draws world0)))))
       /\ (float_add (float_of_int (1 * 2 ^ 0)) 0 == 1)%Q
       /\ (float_add (float_of_int (1 * 2 ^ 1)) 0 == 2)%Q
       /\ (forall base_delay attempt,
             BaseScraper.backoff base_delay attempt = base_delay * 2 ^ attempt)
       /\ (forall attempt, 0 <= attempt ->
             BaseScraper.backoff 1 attempt < BaseScraper.backoff 1 (attempt + 1))
       /\ ((1 <= d0)%Q /\ (d0 <= 2)%Q)
       /\ ((2 <= d1)%Q /\ (d1 <= 3)%Q).
Proof.
  split.
  - intros k Hk. reflexivity.
  - apply (make_request_exhausts_retries env_down world0 "https://inshorts.com/en/read" 10).
    intros k Hk. reflexivity.
Defined.

(** ** The date normaliser *)

Lemma check_date_fields_ValueError year month day e :
  _check_date_fields year month day = Raise e -> is_ValueError e = true.
Proof.
  unfold _check_date_fields.
  repeat (destruct (negb _); [intros [= <-]; reflexivity |]).
  discriminate.
Qed.

Lemma strptime_ValueError date_str fmt e :
  strptime date_str fmt = Raise e -> is_ValueError e = true.
Proof.
  unfold strptime.
  destruct (pattern _) as [bad | items]; [intros [= <-]; reflexivity |].
  destruct (re_match _ _) as [[found rest] |]; [| intros [= <-]; reflexivity].
  destruct rest; [| intros [= <-]; reflexivity].
  destruct (_check_date_fields _ _ _) eqn:Hc; [discriminate |].
  intros [= <-]. eapply check_date_fields_ValueError, Hc.
Qed.

Lemma strptime_Ok date_str fmt dt :
  strptime date_str fmt = Ok dt ->
  exists year month day,
    date_groups date_str fmt = Some (year, month, day)
    /\ _check_date_fields year month day = Ok tt
    /\ dt = midnight year month day.
Proof.
  unfold strptime, date_groups.
  destruct (pattern _) as [bad | items]; [discriminate |].
  destruct (re_match _ _) as [[found rest] |]; [| discriminate].
  destruct rest; [| discriminate].
  destruct (_check_date_fields _ _ _) as [[] |] eqn:Hc; [| discriminate].
  intros [= <-]. eexists _, _, _. split; [reflexivity |]. split; [exact Hc | reflexivity].
Qed.

Lemma midnight_time_of_day year month day : time_of_day (midnight year month day) = 0.
Proof. unfold time_of_day, midnight. simpl. apply Z.mod_mul. discriminate. Qed.

Lemma midnight_toordinal year month day :
  toordinal (midnight year month day) = _ymd2ord year month day.
Proof.
  unfold toordinal, midnight. simpl. rewrite Z.div_mul by discriminate. lia.
Qed.

(** The loop over the formats, run on its own. *)
Lemma parse_date_loop date_str formats env (w : World) :
  for_in (S := World) formats (fun fmt =>
    try_except
      (dt ← eval (strptime date_str fmt);
       mret (Return dt))
      is_ValueError
      (fun _ => mret Next)) env w
  = (Ok match first_matching_format date_str formats with
        | Some dt => Return dt
        | None => Next
        end, w).
Proof.
  induction formats as [| fmt formats IH]; [reflexivity |].
  simpl for_in. rewrite run_bind. unfold try_except at 1. rewrite run_bind. unfold eval at 1.
  simpl first_matching_format.
  destruct (strptime date_str fmt) as [dt | e] eqn:Hs.
  - reflexivity.
  - rewrite (strptime_ValueError _ _ _ Hs). simpl. exact IH.
Qed.

Lemma parse_date_run date_str env w :
  BaseScraper._parse_date date_str env w =
  match first_matching_format date_str DATE_FORMATS with
  | Some dt => (Ok dt, w)
  | None => timezone_now env w
  end.
Proof.
  unfold BaseScraper._parse_date, try_except at 1. rewrite run_bind.
  rewrite (parse_date_loop date_str _ env w). fold DATE_FORMATS.
  destruct (first_matching_format date_str DATE_FORMATS); reflexivity.
Qed.

(** C3. [_parse_date] returns the date of the first of the formats
    YYYY-MM-DD, DD/MM/YYYY, MM/DD/YYYY that accepts the text, and the
    current time when none does; it never raises.  The text 01/02/2020,
    which the third format reads as the 2nd of January, is the 1st of
    February. *)
Theorem parse_date_first_format (date_str : string) (env : Env) (w : World) :
  BaseScraper._parse_date date_str env w =
    match first_matching_format date_str ["%Y-%m-%d"; "%d/%m/%Y"; "%m/%d/%Y"] with
    | Some dt => (Ok dt, w)
    | None => timezone_now env w
    end
  /\ is_Ok (fst (BaseScraper._parse_date date_str env w)) = true
  /\ BaseScraper._parse_date "01/02/2020" env w = (Ok (midnight 2020 2 1), w)
  /\ strptime "01/02/2020" "%m/%d/%Y" = Ok (midnight 2020 1 2)
  /\ midnight 2020 2 1 <> midnight 2020 1 2.
Proof.
  split; [apply parse_date_run |]. split; [| split; [| split]].
  - rewrite parse_date_run. fold DATE_FORMATS.
    destruct (first_matching_format date_str DATE_FORMATS); reflexivity.
  - rewrite parse_date_run. reflexivity.
  - reflexivity.
  - discriminate.
Qed.

Lemma first_matching_format_Some date_str formats dt :
  first_matching_format date_str formats = Some dt ->
  exists fmt, In fmt formats /\ strptime date_str fmt = Ok dt.
Proof.
  induction formats as [| fmt formats IH]; [discriminate |].
  simpl. destruct (strptime date_str fmt) as [dt' | e] eqn:Hs.
  - intros [= <-]. exists fmt. split; [left; reflexivity | exact Hs].
  - intros Hm. destruct (IH Hm) as (fmt' & Hin & Hok).
    exists fmt'. split; [right; exact Hin | exact Hok].
Qed.

Lemma first_matching_format_None date_str formats :
  (forall fmt, In fmt formats -> is_Ok (strptime date_str fmt) = false) ->
  first_matching_format date_str formats = None.
Proof.
  induction formats as [| fmt formats IH]; [reflexivity |].
  intros Hno. simpl.
  pose proof (Hno fmt (or_introl eq_refl)) as Hf.
  destruct (strptime date_str fmt); [discriminate |].
  apply IH. intros fmt' Hin. apply Hno. right. exact Hin.
Qed.

Lemma first_matching_format_accepts date_str formats fmt dt0 :
  In fmt formats -> strptime date_str fmt = Ok dt0 ->
  exists dt, first_matching_format date_str formats = Some dt.
Proof.
  induction formats as [| fmt' formats IH]; [intros [] |].
  intros Hin Hok. simpl.
  destruct (strptime date_str fmt') as [dt' | e] eqn:Hs; [exists dt'; reflexivity |].
  destruct Hin as [-> | Hin]; [congruence |].
  apply IH; assumption.
Qed.

(** C10 as claimed fails: whether the fallback is aware is decided by
    Django's [USE_TZ] setting.  With the setting off, a text that matches
    no format gives the reading of the clock as a naive datetime, which is
    as unaware of time zones as the result for a text that matches. *)
Lemma parse_date_fallback_naive :
  (forall fmt, In fmt DATE_FORMATS -> is_Ok (strptime "next week" fmt) = false)
  /\ exists now dt,
       BaseScraper._parse_date "next week" env_naive world0 = (Ok now, tick world0)
       /\ BaseScraper._parse_date "2024-03-15" env_naive world0 = (Ok dt, world0)
       /\ tzinfo now = None
       /\ tzinfo dt = None.
Proof.
  split; [intros fmt [<- | [<- | [<- | []]]]; reflexivity |].
  eexists _, _. split; [vm_compute; reflexivity |]. split; [vm_compute; reflexivity |].
  split; reflexivity.
Qed.

(** C10, amended. When the text matches one of the three formats,
    [_parse_date] returns the naive datetime of the parsed year, month and
    day at 00:00:00.  When it matches none, it returns the reading of the
    clock, which carries the UTC zone when Django's [USE_TZ] is on and no
    zone when it is off: the two branches differ in time zone awareness
    exactly when [USE_TZ] is on. *)
Theorem parse_date_naive_or_aware (date_str : string) (env : Env) (w : World) :
  (forall fmt dt0, In fmt DATE_FORMATS -> strptime date_str fmt = Ok dt0 ->
     exists dt fmt' year month day,
       BaseScraper._parse_date date_str env w = (Ok dt, w)
       /\ In fmt' DATE_FORMATS
       /\ date_groups date_str fmt' = Some (year, month, day)
       /\ dt = midnight year month day
       /\ toordinal dt = _ymd2ord year month day
       /\ time_of_day dt = 0
       /\ tzinfo dt = None)
  /\ ((forall fmt, In fmt DATE_FORMATS -> is_Ok (strptime date_str fmt) = false) ->
      exists now,
        BaseScraper._parse_date date_str env w = (Ok now, tick w)
        /\ wall_us now = wall_clock env (ticks w)
        /\ tzinfo now = (if USE_TZ env then Some UTC else None)
        /\ (tzinfo now <> None <-> USE_TZ env = true)).
Proof.
  split.
  - intros fmt dt0 Hin Hok.
    destruct (first_matching_format_accepts _ _ _ _ Hin Hok) as (dt & Hfirst).
    destruct (first_matching_format_Some _ _ _ Hfirst) as (fmt' & Hin' & Hok').
    destruct (strptime_Ok _ _ _ Hok') as (year & month & day & Hg & _ & ->).
    exists (midnight year month day), fmt', year, month, day.
    rewrite parse_date_run, Hfirst.
    repeat split; try assumption.
    + apply midnight_toordinal.
    + apply midnight_time_of_day.
  - intros Hno. rewrite parse_date_run, (first_matching_format_None _ _ Hno).
    unfold timezone_now. eexists. split; [reflexivity |]. split; [reflexivity |].
    split; [reflexivity |]. cbn [tzinfo].
    destruct (USE_TZ env); split; intros Hz; try reflexivity; try discriminate.
    exfalso. apply Hz. reflexivity.
Qed.

Lemma parse_date_naive_or_aware_witness :
  (exists dt fmt' year month day,
     BaseScraper._parse_date "2024-03-15" env_sample world0 = (Ok dt, world0)
     /\ In fmt' DATE_FORMATS
     /\ date_groups "2024-03-15" fmt' = Some (year, month, day)
     /\ dt = midnight year month day
     /\ toordinal dt = _ymd2ord year month day
     /\ time_of_day dt = 0
     /\ tzinfo dt = None)
  /\ (exists now,
        BaseScraper._parse_date "next week" env_sample world0 = (Ok now, tick world0)
        /\ wall_us now = wall_clock env_sample (ticks world0)
        /\ tzinfo now = (if USE_TZ env_sample then Some UTC else None)
        /\ (tzinfo now <> None <-> USE_TZ env_sample = true)).
Proof.
  split.
  - apply (proj1 (parse_date_naive_or_aware "2024-03-15" env_sample world0)
             "%Y-%m-%d" (midnight 2024 3 15)).
    + left. reflexivity.
    + reflexivity.
  - apply (proj2 (parse_date_naive_or_aware "next week" env_sample world0)).
    intros fmt [<- | [<- | [<- | []]]]; reflexivity.
Defined.

(** ** The registry *)

Lemma SCRAPERS_lookup (source : string) :
  SCRAPERS !! source =
    if decide (source = "inshorts") then Some scrape_inshorts
    else if decide (source = "hindustan_times") then Some scrape_ht
    else None.
Proof.
  unfold SCRAPERS.
  destruct (decide (source = "inshorts")) as [-> | Hi].
  - rewrite lookup_insert_ne by discriminate. apply lookup_insert_eq.
  - destruct (decide (source = "hindustan_times")) as [-> | Hh].
    + apply lookup_insert_eq.
    + rewrite lookup_insert_ne by congruence.
      rewrite lookup_insert_ne by congruence.
      apply lookup_empty.
Qed.

(** C6. [get_scraper_function] returns the registered function for
    [inshorts] and for [hindustan_times], and [None] for every other
    identifier, [unknown_source] among them: there is no default. *)
Theorem get_scraper_function_lookup (source : string) :
  get_scraper_function source =
    (if decide (source = "inshorts") then Some scrape_inshorts
     else if decide (source = "hindustan_times") then Some scrape_ht
     else None)
  /\ get_scraper_function "inshorts" = Some scrape_inshorts
  /\ get_scraper_function "hindustan_times" = Some scrape_ht
  /\ get_scraper_function "unknown_source" = None.
Proof.
  unfold get_scraper_function.
  split; [apply SCRAPERS_lookup |].
  split; [rewrite SCRAPERS_lookup; reflexivity |].
  split; rewrite SCRAPERS_lookup; reflexivity.
Qed.

(** ** The mock scrapers *)

Lemma scrape_inshorts_fields env w :
  exists articles w',
    scrape_inshorts env w = (Ok articles, w')
    /\ map fields articles = map inshorts_mock_fields (indices 1 10).
Proof.
  eexists _, _. split.
  - vm_compute. reflexivity.
  - vm_compute. reflexivity.
Qed.

Lemma scrape_ht_fields env w :
  exists articles w',
    scrape_ht env w = (Ok articles, w')
    /\ map fields articles = map ht_mock_fields (indices 1 10).
Proof.
  eexists _, _. split.
  - vm_compute. reflexivity.
  - vm_compute. reflexivity.
Qed.

(** C8. The scrape of [inshorts], which runs the mock scraper, returns
    exactly ten records; the i-th has the index i in its title and the url
    [https://inshorts.com/news/article-i], for i from 1 to 10. *)
Theorem scrape_inshorts_ten_records (env : Env) (w : World) :
  exists articles w',
    scrape_inshorts env w = (Ok articles, w')
    /\ length articles = 10%nat
    /\ map (fun a => (title a, url a)) articles =
       map (fun i => ("InShorts Breaking News " +:+ pretty i +:+ ": Important Development in Technology",
                      "https://inshorts.com/news/article-" +:+ pretty i))
           [1; 2; 3; 4; 5; 6; 7; 8; 9; 10]
    /\ map (pretty : Z -> string) [1; 2; 3; 4; 5; 6; 7; 8; 9; 10]
       = ["1"; "2"; "3"; "4"; "5"; "6"; "7"; "8"; "9"; "10"].
Proof.
  destruct (scrape_inshorts_fields env w) as (articles & w' & Hrun & Hfields).
  exists articles, w'. split; [exact Hrun |].
  split; [| split].
  - apply (f_equal (@length _)) in Hfields.
    rewrite !length_map in Hfields. exact Hfields.
  - apply (f_equal (map (fun f : string * string * string * string => (fst (fst (fst f)), snd (fst f))))) in Hfields.
    rewrite !map_map in Hfields. exact Hfields.
  - reflexivity.
Qed.

(** C9. Two scrapes of a registered source, from any two states of the
    world (the state the first scrape leaves behind among them), return
    records with the same titles, summaries, urls and sources.  Their
    timestamps can differ: under a ticking clock the second of two scrapes
    in a row returns later timestamps. *)
Theorem registered_scrapes_repeat (source_id : string) (scrape : M World (list Article))
    (env1 env2 : Env) (w1 w2 : World) :
  SCRAPERS !! source_id = Some scrape ->
  (exists articles1 w1' articles2 w2',
     scrape env1 w1 = (Ok articles1, w1')
     /\ scrape env2 w2 = (Ok articles2, w2')
     /\ map title articles1 = map title articles2
     /\ map url articles1 = map url articles2
     /\ map source articles1 = map source articles2
     /\ map summary articles1 = map summary articles2)
  /\ (exists articles1 w' articles2 w'',
        scrape env_ticking world0 = (Ok articles1, w')
        /\ scrape env_ticking w' = (Ok articles2, w'')
        /\ map published_at articles1 <> map published_at articles2).
Proof.
  intros Hreg. rewrite SCRAPERS_lookup in Hreg.
  assert (Hfields : exists expected, forall env w, exists articles w',
            scrape env w = (Ok articles, w') /\ map fields articles = expected).
  { destruct (decide (source_id = "inshorts")).
    - injection Hreg as <-. eexists. apply scrape_inshorts_fields.
    - destruct (decide (source_id = "hindustan_times")); [| discriminate].
      injection Hreg as <-. eexists. apply scrape_ht_fields. }
  split.
  - destruct Hfields as (expected & Hrun).
    destruct (Hrun env1 w1) as (a1 & s1 & Hr1 & Hf1).
    destruct (Hrun env2 w2) as (a2 & s2 & Hr2 & Hf2).
    exists a1, s1, a2, s2.
    assert (Heq : map fields a1 = map fields a2) by congruence.
    split; [exact Hr1 |]. split; [exact Hr2 |].
    repeat split.
    + apply (f_equal (map (fun f : string * string * string * string => fst (fst (fst f))))) in Heq.
      rewrite !map_map in Heq. exact Heq.
    + apply (f_equal (map (fun f : string * string * string * string => snd (fst f)))) in Heq.
      rewrite !map_map in Heq. exact Heq.
    + apply (f_equal (map (fun f : string * string * string * string => snd f))) in Heq.
      rewrite !map_map in Heq. exact Heq.
    + apply (f_equal (map (fun f : string * string * string * string => snd (fst (fst f))))) in Heq.
      rewrite !map_map in Heq. exact Heq.
  - destruct (decide (source_id = "inshorts")).
    + injection Hreg as <-. eexists _, _, _, _.
      split; [vm_compute; reflexivity |]. split; [vm_compute; reflexivity |].
      vm_compute. discriminate.
    + destruct (decide (source_id = "hindustan_times")); [| discriminate].
      injection Hreg as <-. eexists _, _, _, _.
      split; [vm_compute; reflexivity |]. split; [vm_compute; reflexivity |].
      vm_compute. discriminate.
Qed.

Lemma registered_scrapes_repeat_witness :
  SCRAPERS !! "inshorts" = Some scrape_inshorts
  /\ (exists articles1 w1' articles2 w2',
        scrape_inshorts env_sample world0 = (Ok articles1, w1')
        /\ scrape_inshorts env_ticking (tick world0) = (Ok articles2, w2')
        /\ map title articles1 = map title articles2
        /\ map url articles1 = map url articles2
        /\ map source articles1 = map source articles2
        /\ map summary articles1 = map summary articles2)
  /\ (exists articles1 w' articles2 w'',
        scrape_inshorts env_ticking world0 = (Ok articles1, w')
        /\ scrape_inshorts env_ticking w' = (Ok articles2, w'')
        /\ map published_at articles1 <> map published_at articles2).
Proof.
  split; [apply SCRAPERS_lookup |].
  apply (registered_scrapes_repeat "inshorts" scrape_inshorts env_sample env_ticking
           world0 (tick world0)).
  apply SCRAPERS_lookup.
Defined.

(** ** The extractors *)

Section ExtractionLemmas.
Context {E : Type} `{Soup E}.

Lemma inshorts_extract_follows :
  follows InShortsScaper._extract_article_data "inshorts" inshorts_contribution.
Proof.
  intros card env w.
  unfold InShortsScaper._extract_article_data, inshorts_contribution. run.
  destruct (find card "span" _) as [title_elem | e]; [| settle].
  destruct (find card "div" _) as [summary_elem | e]; [| settle].
  destruct (find card "a" _) as [url_elem | e]; [| settle].
  destruct title_elem as [title_elem |], summary_elem as [summary_elem |],
           url_elem as [url_elem |]; try settle.
  destruct (get_text title_elem) as [title | e]; [| settle].
  destruct (get_text summary_elem) as [summary | e]; [| settle].
  destruct (get url_elem "href" "") as [url | e]; settle.
Qed.

Lemma ht_extract_follows :
  follows HindustanTimesScaper._extract_article_data "hindustan_times" ht_contribution.
Proof.
  intros element env w.
  unfold HindustanTimesScaper._extract_article_data, ht_contribution. run.
  destruct (find element "h3" _) as [title_elem | e]; [| settle].
  destruct (find element "p" _) as [summary_elem | e]; [| settle].
  destruct (find element "a" _) as [link_elem | e]; [| settle].
  destruct title_elem as [title_elem |], link_elem as [link_elem |]; try settle.
  destruct summary_elem as [summary_elem |].
  - destruct (get_text summary_elem) as [summary | e]; [| settle].
    destruct (get_text title_elem) as [title | e]; [| settle].
    destruct (get link_elem "href" "") as [url | e]; settle.
  - destruct (get_text title_elem) as [title | e]; [| settle].
    destruct (get link_elem "href" "") as [url | e]; settle.
Qed.

End ExtractionLemmas.

(** ** The scrape loop *)

Lemma scrape_loop_total {E} (extract : E -> M World (option Article)) cards env s :
  exists s', for_in cards (scrape_step extract) env s = (Ok Next, s').
Proof.
  revert s. induction cards as [| card cards IH]; intros s; [eexists; reflexivity |].
  simpl for_in. rewrite run_bind. unfold scrape_step at 1. run.
  destruct (extract card env (snd s)) as [[[article |] | e] w']; apply IH.
Qed.

Lemma scrape_loop_follows {E} (extract : E -> M World (option Article)) name contrib :
  follows extract name contrib ->
  forall cards env articles w,
  exists new w',
    for_in cards (scrape_step extract) env (articles, w) = (Ok Next, ((articles ++ new)%list, w'))
    /\ map fields new = omap (fun card => record_of name (contrib card)) cards
    /\ logged w' = (logged w ++ flat_map (fun card => error_lines (contrib card)) cards)%list.
Proof.
  intros Hf cards env. induction cards as [| card cards IH]; intros articles w.
  - exists [], w. rewrite !app_nil_r. repeat split.
  - destruct (Hf card env w) as (article & w1 & Hx & Hrec & Hlog).
    simpl for_in. rewrite run_bind. unfold scrape_step at 1. run.
    simpl snd. rewrite Hx. simpl omap. rewrite <- Hrec. simpl flat_map.
    destruct article as [article |]; simpl.
    + destruct (IH (articles ++ [article])%list w1) as (new & w' & Hrun & Hnew & Hlog').
      exists (article :: new), w'. rewrite Hrun, <- app_assoc. split; [reflexivity |].
      split; [simpl; rewrite Hnew; reflexivity |].
      rewrite Hlog', Hlog, <- app_assoc. reflexivity.
    + destruct (IH articles w1) as (new & w' & Hrun & Hnew & Hlog').
      exists new, w'. rewrite Hrun. split; [reflexivity |]. split; [exact Hnew |].
      rewrite Hlog', Hlog, <- app_assoc. reflexivity.
Qed.

Section ScrapeLemmas.
Context {E : Type} `{Soup E}.

Lemma inshorts_scrape_shape :
  InShortsScaper.scrape_articles
  = scrape_with "InShorts" InShortsScaper.base_url "news-card" InShortsScaper._extract_article_data.
Proof. reflexivity. Qed.

Lemma ht_scrape_shape :
  HindustanTimesScaper.scrape_articles
  = scrape_with "Hindustan Times" HindustanTimesScaper.base_url "cartHolder"
      HindustanTimesScaper._extract_article_data.
Proof. reflexivity. Qed.

End ScrapeLemmas.

(** A loop that returns does so from the body, at one of its elements. *)
Lemma for_in_Return {S X R} (xs : list X) (body : X -> M S (flow R)) env s v s' :
  for_in xs body env s = (Ok (Return v), s') ->
  exists x s0, In x xs /\ body x env s0 = (Ok (Return v), s').
Proof.
  revert s. induction xs as [| x xs IH]; intros s; simpl for_in.
  - unfold ret. discriminate.
  - rewrite run_bind. destruct (body x env s) as [[[| v'] | e] s1] eqn:Hbody.
    + intros Hrest. destruct (IH _ Hrest) as (x' & s0 & Hin & Hx).
      exists x', s0. split; [right; exact Hin | exact Hx].
    + unfold ret. intros [= <- <-]. exists x, s. split; [left; reflexivity | exact Hbody].
    + discriminate.
Qed.

(** A response that [_make_request] returns has passed [raise_for_status]. *)
Lemma make_request_ok url timeout env w response w' :
  BaseScraper._make_request url timeout env w = (Ok (Some response), w') ->
  Response_bool response = true.
Proof.
  unfold BaseScraper._make_request. rewrite run_bind.
  destruct (for_in _ _ env w) as [[[| v] | e] w1] eqn:Hloop; try discriminate.
  intros [= -> ->].
  apply for_in_Return in Hloop. destruct Hloop as (attempt & s0 & _ & Hbody).
  revert Hbody. run. unfold session_get_url, Response_bool.
  destruct (session_get env (gets s0) url timeout) as [r | e].
  - destruct (raise_for_status r) eqn:Hok.
    + intros [= <- _]. rewrite Hok. reflexivity.
    + destruct (is_RequestException e); [| discriminate].
      destruct (attempt <? _); discriminate.
  - destruct (is_RequestException e); [| discriminate].
    destruct (attempt <? _); discriminate.
Qed.

Section ScrapeRun.
Context {E : Type} `{Soup E}.
Variables (label url cls name : string).
Variable extract : E -> M World (option Article).

Lemma scrape_with_total env w :
  exists articles w', scrape_with label url cls extract env w = (Ok articles, w').
Proof.
  unfold scrape_with. run_all.
  destruct (BaseScraper._make_request url 10 env _) as [[[response |] | e] w1];
    try (eexists _, _; reflexivity).
  destruct (Response_bool response); run_all; [| eexists _, _; reflexivity].
  destruct (BeautifulSoup (content response) "lxml") as [soup | e];
    [| eexists _, _; reflexivity].
  destruct (find_all soup "div" _) as [found | e]; [| eexists _, _; reflexivity].
  destruct (scrape_loop_total extract (take 20 found) env ([], w1)) as ([articles w'] & Hloop).
  rewrite Hloop. eexists _, _; reflexivity.
Qed.

Variable contrib : E -> contribution.
Hypothesis Hfollows : follows extract name contrib.

Lemma scrape_with_run env w :
  exists articles w' cards,
    scrape_with label url cls extract env w = (Ok articles, w')
    /\ map fields articles = omap (fun card => record_of name (contrib card)) cards
    /\ (forall response w1 soup found,
          BaseScraper._make_request url 10 env
            (snd (log INFO ("Starting " +:+ label +:+ " scraping...") env w))
          = (Ok (Some response), w1) ->
          BeautifulSoup (content response) "lxml" = Ok soup ->
          find_all soup "div" [("class", cls)] = Ok found ->
          cards = take 20 found
          /\ logged w' =
             (logged w1 ++ flat_map (fun card => error_lines (contrib card)) cards
              ++ [(INFO, "Scraped " +:+ pretty (length articles) +:+ " articles from " +:+ label)])%list).
Proof.
  unfold scrape_with. run_all.
  destruct (BaseScraper._make_request url 10 env _) as [[[response |] | e] w1] eqn:Hreq.
  - pose proof (make_request_ok _ _ _ _ _ _ Hreq) as Hok. rewrite Hok. run_all.
    destruct (BeautifulSoup (content response) "lxml") as [soup | e] eqn:Hsoup.
    + destruct (find_all soup "div" _) as [found | e] eqn:Hfind.
      * destruct (scrape_loop_follows extract name contrib Hfollows (take 20 found) env [] w1)
          as (new & w' & Hloop & Hnew & Hlog).
        rewrite Hloop. simpl app. eexists _, _, (take 20 found).
        split; [reflexivity |]. split; [exact Hnew |].
        intros response' w1' soup' found' [= <- <-] Hsoup' Hfind'.
        rewrite Hsoup in Hsoup'. injection Hsoup' as <-.
        rewrite Hfind in Hfind'. injection Hfind' as <-.
        split; [reflexivity |]. simpl logged. rewrite Hlog, <- app_assoc. reflexivity.
      * eexists _, _, []. split; [reflexivity |]. split; [reflexivity |].
        intros response' w1' soup' found' [= <- <-] Hsoup' Hfind'. congruence.
    + eexists _, _, []. split; [reflexivity |]. split; [reflexivity |].
      intros response' w1' soup' found' [= <- <-] Hsoup' Hfind'. congruence.
  - eexists _, _, []. split; [reflexivity |]. split; [reflexivity |]. intros; discriminate.
  - eexists _, _, []. split; [reflexivity |]. split; [reflexivity |]. intros; discriminate.
Qed.

End ScrapeRun.

Section SiteLemmas.
Context {E : Type} `{Soup E}.

Lemma site_scrape_shape s :
  site_scrape s = scrape_with (site_label s) (site_url s) (site_class s) (site_extract s).
Proof. destruct s; reflexivity. Qed.

Lemma site_extract_follows s :
  follows (site_extract s) (site_name s) (site_contribution s).
Proof. destruct s; [apply inshorts_extract_follows | apply ht_extract_follows]. Qed.

Lemma site_scrape_run s env w :
  exists articles w' cards,
    site_scrape s env w = (Ok articles, w')
    /\ map fields articles = omap (site_record s) cards
    /\ (forall found w1, fetches s env w found w1 ->
          cards = take 20 found
          /\ logged w' =
             (logged w1 ++ flat_map (fun card => error_lines (site_contribution s card)) cards
              ++ [(INFO, "Scraped " +:+ pretty (length articles) +:+ " articles from "
                         +:+ site_label s)])%list).
Proof.
  rewrite site_scrape_shape.
  destruct (scrape_with_run (site_label s) (site_url s) (site_class s) (site_name s)
              (site_extract s) (site_contribution s) (site_extract_follows s) env w)
    as (articles & w' & cards & Hrun & Hfields & Hfetched).
  exists articles, w', cards. split; [exact Hrun |]. split; [exact Hfields |].
  intros found w1 (response & soup & Hreq & Hsoup & Hfind).
  exact (Hfetched response w1 soup found Hreq Hsoup Hfind).
Qed.

Lemma lacks_required_no_record s card : lacks_required s card -> site_record s card = None.
Proof.
  intros (sel & Hin & Hnone). unfold site_record.
  destruct s; simpl in Hin; unfold site_contribution, inshorts_contribution, ht_contribution; run.
  - destruct Hin as [<- | [<- | [<- | []]]]; simpl in Hnone.
    + rewrite Hnone.
      destruct (find card "div" _) as [? | ?]; [| reflexivity].
      destruct (find card "a" _) as [? | ?]; reflexivity.
    + rewrite Hnone.
      destruct (find card "span" _) as [[?|] | ?]; [| | reflexivity];
      destruct (find card "a" _) as [? | ?]; reflexivity.
    + rewrite Hnone.
      destruct (find card "span" _) as [[?|] | ?]; [| | reflexivity];
      destruct (find card "div" _) as [[?|] | ?]; reflexivity.
  - destruct Hin as [<- | [<- | []]]; simpl in Hnone.
    + rewrite Hnone.
      destruct (find card "p" _) as [? | ?]; [| reflexivity].
      destruct (find card "a" _) as [? | ?]; reflexivity.
    + rewrite Hnone.
      destruct (find card "h3" _) as [[?|] | ?]; [| | reflexivity];
      destruct (find card "p" _) as [? | ?]; reflexivity.
Qed.

(** The title of a record is the text of the title element of its container. *)
Lemma site_record_title s card title summary url name :
  site_record s card = Some (title, summary, url, name) ->
  name = site_name s
  /\ exists title_elem,
       find card (fst (title_selector s)) (snd (title_selector s)) = Ok (Some title_elem)
       /\ get_text title_elem = Ok title.
Proof.
  unfold site_record.
  destruct s; unfold site_contribution, inshorts_contribution, ht_contribution; run; simpl.
  - destruct (find card "span" _) as [[title_elem |] | ?]; try discriminate;
    destruct (find card "div" _) as [[summary_elem |] | ?]; try discriminate;
    destruct (find card "a" _) as [[url_elem |] | ?]; try discriminate.
    destruct (get_text title_elem) as [t | ?] eqn:Ht; try discriminate.
    destruct (get_text summary_elem) as [? | ?]; try discriminate.
    destruct (get url_elem "href" "") as [? | ?]; try discriminate.
    intros [= <- <- <- <-]. split; [reflexivity |]. exists title_elem. split; [reflexivity | exact Ht].
  - destruct (find card "h3" _) as [[title_elem |] | ?]; try discriminate;
    destruct (find card "p" _) as [summary_elem | ?]; try discriminate;
    destruct (find card "a" _) as [[link_elem |] | ?]; try discriminate.
    destruct summary_elem as [summary_elem |].
    + destruct (get_text summary_elem) as [? | ?]; try discriminate.
      destruct (get_text title_elem) as [t | ?] eqn:Ht; try discriminate.
      destruct (get link_elem "href" "") as [? | ?]; try discriminate.
      intros [= <- <- <- <-]. split; [reflexivity |]. exists title_elem. split; [reflexivity | exact Ht].
    + destruct (get_text title_elem) as [t | ?] eqn:Ht; try discriminate.
      destruct (get link_elem "href" "") as [? | ?]; try discriminate.
      intros [= <- <- <- <-]. split; [reflexivity |]. exists title_elem. split; [reflexivity | exact Ht].
Qed.

End SiteLemmas.

(** ** The records of a scrape *)

(** C2 as claimed fails: the sample page has a card whose headline element
    is present and empty, and the scrape returns a record with an empty
    title for it. *)
Lemma scrape_articles_empty_title :
  exists articles w',
    @InShortsScaper.scrape_articles bs4.node sample_soup env_sample world0 = (Ok articles, w')
    /\ ~ Forall (fun a => title a <> "" /\ source a <> "") articles.
Proof.
  eexists _, _. split; [vm_compute; reflexivity |].
  intros Hall. inversion Hall as [| a1 rest1 _ Hrest]; subst.
  inversion Hrest as [| a2 rest2 [Htitle _] _]; subst.
  apply Htitle. reflexivity.
Qed.

(** C2, amended. Every record that [scrape_articles] returns carries the
    source name of its scraper, which is not empty, and as title the
    stripped text of the title element found in a container (the empty
    string when that element holds no text).  The records are those of the
    first 20 containers of the document, and a container in which a
    required element is not found yields none; nothing is raised. *)
Theorem scrape_articles_records {E : Type} `{Soup E} (s : site) (env : Env) (w : World) :
  exists articles w',
    site_scrape s env w = (Ok articles, w')
    /\ Forall (fun a =>
         source a = site_name s /\ source a <> ""
         /\ exists card title_elem,
              find card (fst (title_selector s)) (snd (title_selector s)) = Ok (Some title_elem)
              /\ get_text title_elem = Ok (title a)) articles
    /\ (forall found w1, fetches s env w found w1 ->
          map fields articles = omap (site_record s) (take 20 found))
    /\ (forall card, lacks_required s card -> site_record s card = None).
Proof.
  destruct (site_scrape_run s env w) as (articles & w' & cards & Hrun & Hfields & Hfetched).
  exists articles, w'. split; [exact Hrun |]. split; [| split].
  - apply Forall_forall. intros a Ha.
    assert (Hin : fields a ∈ omap (site_record s) cards).
    { rewrite <- Hfields. apply list_elem_of_In, in_map, list_elem_of_In, Ha. }
    apply list_elem_of_omap in Hin. destruct Hin as (card & _ & Hrec).
    unfold fields in Hrec.
    destruct (site_record_title s card _ _ _ _ Hrec) as (Hname & title_elem & Hfind & Htext).
    split; [exact Hname |]. split; [rewrite Hname; destruct s; discriminate |].
    exists card, title_elem. split; assumption.
  - intros found w1 Hf. destruct (Hfetched found w1 Hf) as [-> _]. exact Hfields.
  - apply lacks_required_no_record.
Qed.

Lemma sample_fetches :
  @fetches bs4.node sample_soup InShorts env_sample world0
    (bs4.tag_find_all inshorts_page "div" [("class", "news-card")])
    (sent (snd (log INFO "Starting InShorts scraping..." env_sample world0))).
Proof. eexists _, _. split; [vm_compute; reflexivity |]. split; vm_compute; reflexivity. Qed.

Lemma scrape_articles_records_witness :
  exists articles w',
    @site_scrape bs4.node sample_soup InShorts env_sample world0 = (Ok articles, w')
    /\ Forall (fun a =>
         source a = site_name InShorts /\ source a <> ""
         /\ exists card title_elem,
              @find bs4.node sample_soup card (fst (title_selector InShorts))
                (snd (title_selector InShorts)) = Ok (Some title_elem)
              /\ @get_text bs4.node sample_soup title_elem = Ok (title a)) articles
    /\ map fields articles
       = omap (@site_record bs4.node sample_soup InShorts)
           (take 20 (bs4.tag_find_all inshorts_page "div" [("class", "news-card")]))
    /\ @site_record bs4.node sample_soup InShorts inshorts_card_no_body = None.
Proof.
  destruct (@scrape_articles_records bs4.node sample_soup InShorts env_sample world0)
    as (articles & w' & Hrun & Hall & Hfetched & Hlacks).
  exists articles, w'. split; [exact Hrun |]. split; [exact Hall |]. split.
  - exact (Hfetched _ _ sample_fetches).
  - apply Hlacks. exists ("div", [("itemprop", "articleBody")]).
    split; [right; left; reflexivity | reflexivity].
Defined.

(** ** The summary fallback *)

(** C4. A Hindustan Times container with a title and a link and no summary
    element yields a record whose summary is its title; an InShorts card
    with no summary element yields no record. *)
Theorem summary_fallback {E : Type} `{Soup E} (element card title_elem link_elem : E)
    (text href : string) (env : Env) (w : World) :
  find element "h3" [("class", "hdg3")] = Ok (Some title_elem) ->
  find element "p" [("class", "anch")] = Ok None ->
  find element "a" [] = Ok (Some link_elem) ->
  get_text title_elem = Ok text ->
  get link_elem "href" "" = Ok href ->
  find card "div" [("itemprop", "articleBody")] = Ok None ->
  (exists article w',
     HindustanTimesScaper._extract_article_data element env w = (Ok (Some article), w')
     /\ title article = text
     /\ summary article = title article
     /\ site_record HindustanTimes element = Some (text, text, href, "hindustan_times"))
  /\ (exists w', InShortsScaper._extract_article_data card env w = (Ok None, w'))
  /\ site_record InShorts card = None.
Proof.
  intros Htitle Hsummary Hlink Htext Hhref Hbody. split; [| split].
  - unfold HindustanTimesScaper._extract_article_data, site_record, site_contribution,
      ht_contribution. run.
    rewrite Htitle, Hsummary, Hlink, Htext, Hhref.
    eexists _, _. repeat split.
  - destruct (inshorts_extract_follows card env w) as (article & w' & Hrun & Hrec & _).
    exists w'. rewrite Hrun.
    assert (Hnone : record_of "inshorts" (inshorts_contribution card) = None).
    { apply (lacks_required_no_record InShorts).
      exists ("div", [("itemprop", "articleBody")]). split; [right; left; reflexivity | exact Hbody]. }
    rewrite Hnone in Hrec. destruct article; [discriminate | reflexivity].
  - apply lacks_required_no_record.
    exists ("div", [("itemprop", "articleBody")]). split; [right; left; reflexivity | exact Hbody].
Qed.

Lemma summary_fallback_witness :
  (@find bs4.node sample_soup ht_card_no_summary "h3" [("class", "hdg3")] = Ok (Some ht_title_elem)
   /\ @find bs4.node sample_soup ht_card_no_summary "p" [("class", "anch")] = Ok None
   /\ @find bs4.node sample_soup ht_card_no_summary "a" [] = Ok (Some ht_link_elem)
   /\ @get_text bs4.node sample_soup ht_title_elem = Ok "Monsoon arrives"
   /\ @get bs4.node sample_soup ht_link_elem "href" "" = Ok "/india/monsoon"
   /\ @find bs4.node sample_soup inshorts_card_no_body "div" [("itemprop", "articleBody")] = Ok None)
  /\ (exists article w',
        @HindustanTimesScaper._extract_article_data bs4.node sample_soup ht_card_no_summary
          env_sample world0 = (Ok (Some article), w')
        /\ title article = "Monsoon arrives"
        /\ summary article = title article
        /\ @site_record bs4.node sample_soup HindustanTimes ht_card_no_summary
           = Some ("Monsoon arrives", "Monsoon arrives", "/india/monsoon", "hindustan_times"))
  /\ (exists w', @InShortsScaper._extract_article_data bs4.node sample_soup inshorts_card_no_body
                   env_sample world0 = (Ok None, w'))
  /\ @site_record bs4.node sample_soup InShorts inshorts_card_no_body = None.
Proof.
  split; [repeat split |].
  apply (@summary_fallback bs4.node sample_soup ht_card_no_summary inshorts_card_no_body
           ht_title_elem ht_link_elem "Monsoon arrives" "/india/monsoon" env_sample world0);
    reflexivity.
Defined.

(** ** The cap and the order *)

(** C5. Of a fetched document, [scrape_articles] examines the first 20
    containers and no other: the records returned are those of the first
    20 containers, in the order of the document, and the log holds the
    errors of these containers only.  A document of more than 20
    containers has exactly 20 examined. *)
Theorem scrape_first_twenty {E : Type} `{Soup E} (s : site) (env : Env) (w w1 : World)
    (found : list E) :
  fetches s env w found w1 ->
  exists articles w',
    site_scrape s env w = (Ok articles, w')
    /\ map fields articles = omap (site_record s) (take 20 found)
    /\ logged w' =
       (logged w1
        ++ flat_map (fun card => error_lines (site_contribution s card)) (take 20 found)
        ++ [(INFO, "Scraped " +:+ pretty (length articles) +:+ " articles from "
                   +:+ site_label s)])%list
    /\ (length (take 20 found) <= 20)%nat
    /\ ((20 < length found)%nat -> length (take 20 found) = 20%nat).
Proof.
  intros Hf.
  destruct (site_scrape_run s env w) as (articles & w' & cards & Hrun & Hfields & Hfetched).
  destruct (Hfetched found w1 Hf) as [-> Hlog].
  exists articles, w'. split; [exact Hrun |]. split; [exact Hfields |]. split; [exact Hlog |].
  rewrite length_take. split; lia.
Qed.

Lemma long_page_fetches :
  @fetches bs4.node (serving_soup (long_page 22)) InShorts env_online world0
    (map numbered_card (indices 1 22))
    (sent (snd (log INFO "Starting InShorts scraping..." env_online world0))).
Proof. eexists _, _. split; [vm_compute; reflexivity |]. split; vm_compute; reflexivity. Qed.

Lemma scrape_first_twenty_witness :
  @fetches bs4.node (serving_soup (long_page 22)) InShorts env_online world0
    (map numbered_card (indices 1 22))
    (sent (snd (log INFO "Starting InShorts scraping..." env_online world0)))
  /\ exists articles w',
       @site_scrape bs4.node (serving_soup (long_page 22)) InShorts env_online world0
       = (Ok articles, w')
       /\ map title articles = map (fun i => "Story " +:+ pretty i) (indices 1 20)
       /\ length (take 20 (map numbered_card (indices 1 22))) = 20%nat.
Proof.
  split; [exact long_page_fetches |].
  destruct (@scrape_first_twenty bs4.node (serving_soup (long_page 22)) InShorts env_online
              world0 _ _ long_page_fetches)
    as (articles & w' & Hrun & Hfields & _ & _ & Hcap).
  exists articles, w'. split; [exact Hrun |]. split.
  - apply (f_equal (map (fun f : string * string * string * string => fst (fst (fst f)))))
      in Hfields.
    rewrite map_map in Hfields.
    etransitivity; [exact Hfields | vm_compute; reflexivity].
  - apply Hcap. vm_compute. lia.
Defined.

(** ** Exceptions in a container *)

(** C7. [scrape_articles] never raises, whatever the elements do, and its
    loop does not raise for any extractor.  A container of the first 20
    whose extraction raises is skipped with an error line in the log: the
    records returned are those of the containers before it followed by
    those of the containers after it. *)
Theorem scrape_skips_raising_container {E : Type} `{Soup E} (s : site) (env : Env) (w : World) :
  (exists articles w', site_scrape s env w = (Ok articles, w'))
  /\ (forall (extract : E -> M World (option Article)) cards state,
        exists state', for_in cards (scrape_step extract) env state = (Ok Next, state'))
  /\ (forall found w1 before card after e,
        fetches s env w found w1 ->
        take 20 found = (before ++ card :: after)%list ->
        site_contribution s card = Raise e ->
        exists articles w',
          site_scrape s env w = (Ok articles, w')
          /\ map fields articles
             = (omap (site_record s) before ++ omap (site_record s) after)%list
          /\ In (ERROR, "Error extracting article data: " +:+ exn_msg e) (logged w')).
Proof.
  split; [| split].
  - destruct (site_scrape_run s env w) as (articles & w' & _ & Hrun & _).
    exists articles, w'. exact Hrun.
  - intros extract cards state. apply scrape_loop_total.
  - intros found w1 before card after e Hf Hsplit Hraise.
    destruct (site_scrape_run s env w) as (articles & w' & cards & Hrun & Hfields & Hfetched).
    destruct (Hfetched found w1 Hf) as [-> Hlog].
    exists articles, w'. split; [exact Hrun |]. split.
    + rewrite Hfields, Hsplit, omap_app. simpl omap.
      unfold site_record at 2. rewrite Hraise. reflexivity.
    + rewrite Hlog, Hsplit, flat_map_app. simpl flat_map. rewrite Hraise.
      apply in_or_app. right. apply in_or_app. left. apply in_or_app. right.
      left. reflexivity.
Qed.

Lemma fragile_page_fetches :
  @fetches bs4.node (fragile_soup fragile_page) InShorts env_online world0
    [numbered_card 1; broken_card; numbered_card 2]
    (sent (snd (log INFO "Starting InShorts scraping..." env_online world0))).
Proof. eexists _, _. split; [vm_compute; reflexivity |]. split; vm_compute; reflexivity. Qed.

Lemma scrape_skips_raising_container_witness :
  @fetches bs4.node (fragile_soup fragile_page) InShorts env_online world0
    [numbered_card 1; broken_card; numbered_card 2]
    (sent (snd (log INFO "Starting InShorts scraping..." env_online world0)))
  /\ take 20 [numbered_card 1; broken_card; numbered_card 2]
     = ([numbered_card 1] ++ broken_card :: [numbered_card 2])%list
  /\ @site_contribution bs4.node (fragile_soup fragile_page) InShorts broken_card
     = Raise (mk_exn RuntimeError "broken element")
  /\ exists articles w',
       @site_scrape bs4.node (fragile_soup fragile_page) InShorts env_online world0
       = (Ok articles, w')
       /\ map fields articles
          = (omap (@site_record bs4.node (fragile_soup fragile_page) InShorts) [numbered_card 1]
             ++ omap (@site_record bs4.node (fragile_soup fragile_page) InShorts) [numbered_card 2])%list
       /\ In (ERROR, "Error extracting article data: "
                     +:+ exn_msg (mk_exn RuntimeError "broken element")) (logged w').
Proof.
  split; [exact fragile_page_fetches |]. split; [reflexivity |]. split; [reflexivity |].
  apply (proj2 (proj2 (@scrape_skips_raising_container bs4.node (fragile_soup fragile_page)
                         InShorts env_online world0))
           _ _ [numbered_card 1] broken_card [numbered_card 2] _ fragile_page_fetches);
    reflexivity.
Defined.

(** * Further properties *)

Lemma retry_delay_bounds env w attempt :
  0 <= attempt <= 1 -> (1 <= retry_delay env w attempt)%Q /\ (retry_delay env w attempt <= 3)%Q.
Proof.
  intros Ha. destruct (retry_delay_between env w attempt Ha) as [Hlo Hhi].
  assert (Hcase : attempt = 0 \/ attempt = 1) by lia.
  destruct Hcase as [-> | ->]; split.
  - exact Hlo.
  - eapply Qle_trans; [exact Hhi |]. discriminate.
  - eapply Qle_trans; [| exact Hlo]. discriminate.
  - exact Hhi.
Qed.

(** The three attempts, one after the other. *)
Ltac next_attempt env w url timeout attempt :=
  rewrite for_in_cons;
  destruct (attempt_cases env w url timeout attempt)
    as [(?response & ?Hget & ?Hok & ->) | [(?e & ?Hget & ?Hcls & ->) | (?e & ?Hfail & ->)]];
  cbv beta iota.

Lemma make_request_bounds (url : string) (timeout : Z) (env : Env) (w : World) :
  exists result w' delays,
    BaseScraper._make_request url timeout env w = (result, w')
    /\ (gets w < gets w' <= gets w + 3)%nat
    /\ ticks w' = ticks w
    /\ slept w' = (slept w ++ delays)%list
    /\ length delays = (gets w' - gets w - 1)%nat
    /\ Forall (fun delay => (1 <= delay)%Q /\ (delay <= 3)%Q) delays.
Proof.
  rewrite make_request_loop, run_bind. change (range 3) with [0; 1; 2].
  next_attempt env w url timeout 0.
  - exists (Ok (Some response)), (sent w), []. simpl. rewrite app_nil_r.
    repeat split; try lia. constructor.
  - exists (Raise e), (sent w), []. simpl. rewrite app_nil_r.
    repeat split; try lia. constructor.
  - change (0 <? 2) with true. cbv iota.
    set (w1 := after_retry env w url 0 e).
    next_attempt env w1 url timeout 1.
    + exists (Ok (Some response)), (sent w1), [retry_delay env w 0]. simpl.
      repeat split; try lia.
      constructor; [apply retry_delay_bounds; lia | constructor].
    + exists (Raise e0), (sent w1), [retry_delay env w 0]. simpl.
      repeat split; try lia.
      constructor; [apply retry_delay_bounds; lia | constructor].
    + change (1 <? 2) with true. cbv iota.
      set (w2 := after_retry env w1 url 1 e0).
      assert (Hdelays : Forall (fun delay => (1 <= delay)%Q /\ (delay <= 3)%Q)
                          [retry_delay env w 0; retry_delay env w1 1]).
      { constructor; [apply retry_delay_bounds; lia |].
        constructor; [apply retry_delay_bounds; lia | constructor]. }
      next_attempt env w2 url timeout 2.
      * exists (Ok (Some response)), (sent w2), [retry_delay env w 0; retry_delay env w1 1].
        simpl. rewrite <- app_assoc. repeat split; try lia. exact Hdelays.
      * exists (Raise e1), (sent w2), [retry_delay env w 0; retry_delay env w1 1].
        simpl. rewrite <- app_assoc. repeat split; try lia. exact Hdelays.
      * change (2 <? 2) with false. cbv iota.
        exists (Ok None), (after_give_up w2 url 2 e1), [retry_delay env w 0; retry_delay env w1 1].
        simpl. rewrite <- app_assoc. repeat split; try lia. exact Hdelays.
Qed.

(** The upper bound is reached: at the largest value of [random.random()]
    the float sum of the second delay is rounded to 3. *)
Example retry_delay_reaches_three :
  (float_add (float_of_int (BaseScraper.backoff 1 1))
     (uniform_of 0 1 (random_of_bits (2 ^ 53 - 1))) == 3)%Q.
Proof. vm_compute. reflexivity. Qed.

(** The message of the [HTTPError] of a 503 answer. *)
Example raise_for_status_message :
  raise_for_status (mk_Response 503 "Service Unavailable" "https://inshorts.com/en/read" "")
  = Raise (mk_exn HTTPError
             "503 Server Error: Service Unavailable for url: https://inshorts.com/en/read").
Proof. vm_compute. reflexivity. Qed.

(** X1. Whatever the network does, [_make_request] sends at least one and
    at most three requests, never reads the clock, and sleeps once between
    two consecutive requests and at no other time; every sleep lasts at
    least 1 and at most 3 seconds, the rounding of the float sum
    included. *)
Theorem make_request_budget (url : string) (timeout : Z) (env : Env) (w : World) :
  exists result w' delays,
    BaseScraper._make_request url timeout env w = (result, w')
    /\ (gets w < gets w' <= gets w + 3)%nat
    /\ ticks w' = ticks w
    /\ slept w' = (slept w ++ delays)%list
    /\ length delays = (gets w' - gets w - 1)%nat
    /\ Forall (fun delay => (1 <= delay)%Q /\ (delay <= 3)%Q) delays.
Proof. apply make_request_bounds. Qed.

(** X2. When the first [k] attempts fail at the transport level and the
    next one, for [k] below 3, is answered with a status outside 4xx and
    5xx, [_make_request] returns that response after [k + 1] requests,
    [k] sleeps and [k] warnings, without an error line. *)
Theorem make_request_succeeds_after (k : nat) (url : string) (timeout : Z) (env : Env)
    (w : World) (response : Response) :
  (k < 3)%nat ->
  (forall j, (j < k)%nat -> transport_failure (session_get env (j + gets w)%nat url timeout)) ->
  session_get env (k + gets w)%nat url timeout = Ok response ->
  Response_bool response = true ->
  exists w' warnings,
    BaseScraper._make_request url timeout env w = (Ok (Some response), w')
    /\ gets w' = (k + 1 + gets w)%nat
    /\ length (slept w') = (length (slept w) + k)%nat
    /\ draws w' = (draws w + k)%nat
    /\ logged w' = (logged w ++ warnings)%list
    /\ length warnings = k
    /\ Forall (fun line => fst line = WARNING) warnings.
Proof.
  intros Hk Hfail Hget Hok.
  rewrite make_request_loop, run_bind. change (range 3) with [0; 1; 2].
  destruct k as [| [| [| k]]]; [| | | lia].
  - rewrite for_in_cons, (attempt_succeeded env w url timeout 0 response Hget Hok).
    exists (sent w), []. simpl. rewrite app_nil_r. repeat split; try lia. constructor.
  - failed_attempt_at env w url timeout 0 (Hfail 0%nat ltac:(lia)).
    change (0 <? 2) with true. cbv iota.
    set (w1 := after_retry env w url 0 e).
    rewrite for_in_cons, (attempt_succeeded env w1 url timeout 1 response Hget Hok).
    exists (sent w1), [warning_line url 0 e]. simpl. rewrite length_app. simpl.
    repeat split; try lia. repeat constructor.
  - failed_attempt_at env w url timeout 0 (Hfail 0%nat ltac:(lia)).
    change (0 <? 2) with true. cbv iota.
    set (w1 := after_retry env w url 0 e).
    failed_attempt_at env w1 url timeout 1 (Hfail 1%nat ltac:(lia)).
    change (1 <? 2) with true. cbv iota.
    set (w2 := after_retry env w1 url 1 e0).
    rewrite for_in_cons, (attempt_succeeded env w2 url timeout 2 response Hget Hok).
    exists (sent w2), [warning_line url 0 e; warning_line url 1 e0]. simpl.
    rewrite !length_app, <- app_assoc. simpl.
    repeat split; try lia. repeat constructor.
Qed.

Lemma make_request_succeeds_after_witness :
  (2 < 3)%nat
  /\ (forall j, (j < 2)%nat ->
        transport_failure (session_get (env_flaky 2) (j + gets world0)%nat "https://inshorts.com/en/read" 10))
  /\ session_get (env_flaky 2) (2 + gets world0)%nat "https://inshorts.com/en/read" 10
     = Ok (mk_Response 200 "OK" "https://inshorts.com/en/read" "<html>")
  /\ Response_bool (mk_Response 200 "OK" "https://inshorts.com/en/read" "<html>") = true
  /\ exists w' warnings,
       BaseScraper._make_request "https://inshorts.com/en/read" 10 (env_flaky 2) world0
       = (Ok (Some (mk_Response 200 "OK" "https://inshorts.com/en/read" "<html>")), w')
       /\ gets w' = (2 + 1 + gets world0)%nat
       /\ length (slept w') = (length (slept world0) + 2)%nat
       /\ draws w' = (draws world0 + 2)%nat
       /\ logged w' = (logged world0 ++ warnings)%list
       /\ length warnings = 2%nat
       /\ Forall (fun line => fst line = WARNING) warnings.
Proof.
  assert (Hfail : forall j, (j < 2)%nat ->
            transport_failure (session_get (env_flaky 2) (j + gets world0)%nat
                                 "https://inshorts.com/en/read" 10)).
  { intros j Hj. destruct j as [| [| j]]; [reflexivity | reflexivity | lia]. }
  split; [lia |]. split; [exact Hfail |]. split; [reflexivity |]. split; [reflexivity |].
  apply (make_request_succeeds_after 2 "https://inshorts.com/en/read" 10 (env_flaky 2) world0
           (mk_Response 200 "OK" "https://inshorts.com/en/read" "<html>")); [lia | exact Hfail | reflexivity | reflexivity].
Defined.

(** X3. An exception of [session.get] that is not a [RequestException]
    is not retried: after [k] failed attempts, for [k] below 3, it leaves
    [_make_request] at once, with no further request. *)
Theorem make_request_propagates (k : nat) (url : string) (timeout : Z) (env : Env)
    (w : World) (e : exn) :
  (k < 3)%nat ->
  (forall j, (j < k)%nat -> transport_failure (session_get env (j + gets w)%nat url timeout)) ->
  session_get env (k + gets w)%nat url timeout = Raise e ->
  is_RequestException e = false ->
  exists w',
    BaseScraper._make_request url timeout env w = (Raise e, w')
    /\ gets w' = (k + 1 + gets w)%nat
    /\ length (slept w') = (length (slept w) + k)%nat.
Proof.
  intros Hk Hfail Hget Hcls.
  rewrite make_request_loop, run_bind. change (range 3) with [0; 1; 2].
  destruct k as [| [| [| k]]]; [| | | lia].
  - rewrite for_in_cons, (attempt_crashed env w url timeout 0 e Hget Hcls).
    exists (sent w). simpl. repeat split; lia.
  - failed_attempt_at env w url timeout 0 (Hfail 0%nat ltac:(lia)).
    change (0 <? 2) with true. cbv iota.
    set (w1 := after_retry env w url 0 e0).
    rewrite for_in_cons, (attempt_crashed env w1 url timeout 1 e Hget Hcls).
    exists (sent w1). simpl. rewrite length_app. simpl. repeat split; lia.
  - failed_attempt_at env w url timeout 0 (Hfail 0%nat ltac:(lia)).
    change (0 <? 2) with true. cbv iota.
    set (w1 := after_retry env w url 0 e0).
    failed_attempt_at env w1 url timeout 1 (Hfail 1%nat ltac:(lia)).
    change (1 <? 2) with true. cbv iota.
    set (w2 := after_retry env w1 url 1 e1).
    rewrite for_in_cons, (attempt_crashed env w2 url timeout 2 e Hget Hcls).
    exists (sent w2). simpl. rewrite !length_app. simpl. repeat split; lia.
Qed.

Lemma make_request_propagates_witness :
  (0 < 3)%nat
  /\ (forall j, (j < 0)%nat ->
        transport_failure (session_get env_broken_url (j + gets world0)%nat "https://inshorts.com/en/read" 10))
  /\ session_get env_broken_url (0 + gets world0)%nat "https://inshorts.com/en/read" 10
     = Raise (mk_exn ValueError "Invalid header value")
  /\ is_RequestException (mk_exn ValueError "Invalid header value") = false
  /\ exists w',
       BaseScraper._make_request "https://inshorts.com/en/read" 10 env_broken_url world0
       = (Raise (mk_exn ValueError "Invalid header value"), w')
       /\ gets w' = (0 + 1 + gets world0)%nat
       /\ length (slept w') = (length (slept world0) + 0)%nat.
Proof.
  split; [lia |]. split; [intros j Hj; lia |]. split; [reflexivity |]. split; [reflexivity |].
  apply (make_request_propagates 0 "https://inshorts.com/en/read" 10 env_broken_url world0
           (mk_exn ValueError "Invalid header value")); [lia | intros j Hj; lia | reflexivity | reflexivity].
Defined.

(** X4. When all three attempts fail at the transport level, the log
    gains, in this order, one warning for each of the attempts 1, 2 and 3
    and one error line that names the url; nothing else is logged.  The
    warning of an attempt carries the message of the exception that made
    this attempt fail: the [RequestException] that its [session.get]
    raised, or the [HTTPError] that [raise_for_status] raised for its
    response. *)
Theorem make_request_exhaustion_log (url : string) (timeout : Z) (env : Env) (w : World) :
  (forall k, (k < 3)%nat -> transport_failure (session_get env (k + gets w)%nat url timeout)) ->
  exists w' e1 e2 e3,
    failure_of (session_get env (0 + gets w)%nat url timeout) = Some e1
    /\ failure_of (session_get env (1 + gets w)%nat url timeout) = Some e2
    /\ failure_of (session_get env (2 + gets w)%nat url timeout) = Some e3
    /\ BaseScraper._make_request url timeout env w = (Ok None, w')
    /\ logged w' =
       (logged w ++
        [(WARNING, "Request attempt 1 failed for " +:+ url +:+ ": " +:+ exn_msg e1);
         (WARNING, "Request attempt 2 failed for " +:+ url +:+ ": " +:+ exn_msg e2);
         (WARNING, "Request attempt 3 failed for " +:+ url +:+ ": " +:+ exn_msg e3);
         (ERROR, "All retry attempts failed for " +:+ url)])%list
    /\ is_RequestException e1 = true
    /\ is_RequestException e2 = true
    /\ is_RequestException e3 = true.
Proof.
  intros Hfail.
  destruct (make_request_exhausted url timeout env w Hfail)
    as (e1 & e2 & e3 & H1 & H2 & H3 & Hrun).
  exists (after_give_up (after_retry env (after_retry env w url 0 e1) url 1 e2) url 2 e3),
         e1, e2, e3.
  split; [exact H1 |]. split; [exact H2 |]. split; [exact H3 |]. split; [exact Hrun |].
  split.
  - unfold after_give_up, after_retry. cbn [logged]. rewrite <- !app_assoc. reflexivity.
  - split; [eapply failure_of_class, H1 |].
    split; [eapply failure_of_class, H2 | eapply failure_of_class, H3].
Qed.

Lemma make_request_exhaustion_log_witness :
  (forall k, (k < 3)%nat ->
     transport_failure (session_get env_unavailable (k + gets world0)%nat "https://inshorts.com/en/read" 10))
  /\ exists w' e1 e2 e3,
       failure_of (session_get env_unavailable (0 + gets world0)%nat "https://inshorts.com/en/read" 10)
       = Some e1
       /\ failure_of (session_get env_unavailable (1 + gets world0)%nat "https://inshorts.com/en/read" 10)
          = Some e2
       /\ failure_of (session_get env_unavailable (2 + gets world0)%nat "https://inshorts.com/en/read" 10)
          = Some e3
       /\ BaseScraper._make_request "https://inshorts.com/en/read" 10 env_unavailable world0
          = (Ok None, w')
       /\ logged w' =
          (logged world0 ++
           [(WARNING, "Request attempt 1 failed for " +:+ "https://inshorts.com/en/read" +:+ ": " +:+ exn_msg e1);
            (WARNING, "Request attempt 2 failed for " +:+ "https://inshorts.com/en/read" +:+ ": " +:+ exn_msg e2);
            (WARNING, "Request attempt 3 failed for " +:+ "https://inshorts.com/en/read" +:+ ": " +:+ exn_msg e3);
            (ERROR, "All retry attempts failed for " +:+ "https://inshorts.com/en/read")])%list
       /\ is_RequestException e1 = true
       /\ is_RequestException e2 = true
       /\ is_RequestException e3 = true.
Proof.
  split; [intros k Hk; reflexivity |].
  apply (make_request_exhaustion_log "https://inshorts.com/en/read" 10 env_unavailable world0).
  intros k Hk. reflexivity.
Defined.

Lemma Response_bool_status response :
  Response_bool response = true ->
  status_code response < 400 \/ 600 <= status_code response.
Proof.
  unfold Response_bool, raise_for_status.
  destruct (400 <=? status_code response) eqn:H4, (status_code response <? 500) eqn:H5,
           (500 <=? status_code response) eqn:H6, (status_code response <? 600) eqn:H7;
    simpl; try discriminate; intros _; lia.
Qed.

(** X5. A response that [_make_request] returns is the answer of one of
    its at most three requests, the last one sent, and its status is not a
    4xx or 5xx one. *)
Theorem make_request_returns_ok (url : string) (timeout : Z) (env : Env) (w w' : World)
    (response : Response) :
  BaseScraper._make_request url timeout env w = (Ok (Some response), w') ->
  (status_code response < 400 \/ 600 <= status_code response)
  /\ exists k, (k < 3)%nat
       /\ session_get env (k + gets w)%nat url timeout = Ok response
       /\ gets w' = (k + 1 + gets w)%nat.
Proof.
  rewrite make_request_loop, run_bind. change (range 3) with [0; 1; 2].
  next_attempt env w url timeout 0.
  - intros [= <- <-]. split; [apply Response_bool_status, Hok |].
    exists 0%nat. repeat split; [lia | exact Hget].
  - discriminate.
  - change (0 <? 2) with true. cbv iota.
    set (w1 := after_retry env w url 0 e).
    next_attempt env w1 url timeout 1.
    + intros [= <- <-]. split; [apply Response_bool_status, Hok |].
      exists 1%nat. repeat split; [lia | exact Hget].
    + discriminate.
    + change (1 <? 2) with true. cbv iota.
      set (w2 := after_retry env w1 url 1 e0).
      next_attempt env w2 url timeout 2.
      * intros [= <- <-]. split; [apply Response_bool_status, Hok |].
        exists 2%nat. repeat split; [lia | exact Hget].
      * discriminate.
      * change (2 <? 2) with false. cbv iota. discriminate.
Qed.

Lemma make_request_returns_ok_witness :
  BaseScraper._make_request "https://inshorts.com/en/read" 10 (env_flaky 1) world0
  = (Ok (Some (mk_Response 200 "OK" "https://inshorts.com/en/read" "<html>")),
     sent (after_retry (env_flaky 1) world0 "https://inshorts.com/en/read" 0
             (mk_exn Timeout "Read timed out")))
  /\ (status_code (mk_Response 200 "OK" "https://inshorts.com/en/read" "<html>") < 400 \/ 600 <= status_code (mk_Response 200 "OK" "https://inshorts.com/en/read" "<html>"))
  /\ exists k, (k < 3)%nat
       /\ session_get (env_flaky 1) (k + gets world0)%nat "https://inshorts.com/en/read" 10
          = Ok (mk_Response 200 "OK" "https://inshorts.com/en/read" "<html>")
       /\ gets (sent (after_retry (env_flaky 1) world0 "https://inshorts.com/en/read" 0
                        (mk_exn Timeout "Read timed out")))
          = (k + 1 + gets world0)%nat.
Proof.
  split; [reflexivity |].
  apply (make_request_returns_ok "https://inshorts.com/en/read" 10 (env_flaky 1) world0 _
           (mk_Response 200 "OK" "https://inshorts.com/en/read" "<html>")).
  reflexivity.
Defined.

(** ** The texts a format can match *)

Lemma match_alt_length alt s txt rest :
  match_alt alt s = Some (txt, rest) -> length s = (length alt + length rest)%nat.
Proof.
  revert s txt rest. induction alt as [| k alt IH]; intros s txt rest; simpl.
  - intros [= _ <-]. reflexivity.
  - destruct s as [| c s]; [discriminate |].
    destruct (in_class k c); [| discriminate].
    destruct (match_alt alt s) as [[txt' rest'] |] eqn:Hm; [| discriminate].
    intros [= _ <-]. simpl. rewrite (IH _ _ _ Hm). reflexivity.
Qed.

Lemma first_of_Some {A B} (f : A -> option B) xs b :
  first_of f xs = Some b -> exists x, In x xs /\ f x = Some b.
Proof.
  induction xs as [| x xs IH]; simpl; [discriminate |].
  destruct (f x) as [b' |] eqn:Hf.
  - intros [= <-]. exists x. split; [left; reflexivity | exact Hf].
  - intros Hrest. destruct (IH Hrest) as (x' & Hin & Hx). exists x'. split; [right |]; assumption.
Qed.

Lemma shortest_le alts alt : In alt alts -> (shortest alts <= length alt)%nat.
Proof.
  induction alts as [| a alts IH]; [intros [] |].
  intros [<- | Hin]; simpl; destruct alts as [| a' alts']; try lia.
  - destruct Hin.
  - specialize (IH Hin). lia.
Qed.

Lemma longest_ge alts alt : In alt alts -> (length alt <= longest alts)%nat.
Proof.
  induction alts as [| a alts IH]; [intros [] |].
  intros [<- | Hin]; simpl; [lia |]. specialize (IH Hin). lia.
Qed.

Lemma re_match_length items s found rest :
  re_match items s = Some (found, rest) ->
  (items_min items + length rest <= length s <= items_max items + length rest)%nat.
Proof.
  revert s found rest. induction items as [| i items IH]; intros s found rest.
  - simpl. intros [= _ <-]. unfold items_min, items_max. simpl. lia.
  - destruct i as [c | name alts]; simpl re_match.
    + destruct s as [| c' s]; [discriminate |].
      destruct (Ascii.eqb c c'); [| discriminate].
      intros Hm. specialize (IH _ _ _ Hm). unfold items_min, items_max in *. simpl in *. lia.
    + intros Hm. apply first_of_Some in Hm. destruct Hm as (alt & Hin & Hm).
      destruct (match_alt alt s) as [[txt s'] |] eqn:Ha; [| discriminate].
      destruct (re_match items s') as [[found' rest'] |] eqn:Hr; [| discriminate].
      injection Hm as _ <-.
      specialize (IH _ _ _ Hr). apply match_alt_length in Ha.
      pose proof (shortest_le _ _ Hin). pose proof (longest_ge _ _ Hin).
      unfold items_min, items_max in *. simpl in *. lia.
Qed.

Lemma length_list_ascii (s : string) : length (list_ascii_of_string s) = String.length s.
Proof. induction s as [| c s IH]; simpl; [reflexivity | rewrite IH; reflexivity]. Qed.

Lemma strptime_length date_str fmt items dt :
  pattern (list_ascii_of_string fmt) = inr items ->
  strptime date_str fmt = Ok dt ->
  (items_min items <= String.length date_str <= items_max items)%nat.
Proof.
  intros Hp. unfold strptime. rewrite Hp.
  destruct (re_match items _) as [[found rest] |] eqn:Hm; [| discriminate].
  destruct rest; [| discriminate]. intros _.
  apply re_match_length in Hm. rewrite length_list_ascii in Hm.
  change (length (@nil ascii)) with 0%nat in Hm. lia.
Qed.

Lemma date_formats_bounds fmt :
  In fmt DATE_FORMATS ->
  exists items,
    pattern (list_ascii_of_string fmt) = inr items
    /\ items_min items = 8%nat /\ items_max items = 10%nat.
Proof.
  intros [<- | [<- | [<- | []]]]; eexists; (split; [reflexivity | split; reflexivity]).
Qed.

(** X6. A text of fewer than 8 or more than 10 characters matches none of
    the formats: [_parse_date] answers with the current time, read from
    the clock once, and changes nothing else.  A date followed by a time
    of day, or surrounded by blanks, is such a text. *)
Theorem parse_date_length_fallback (date_str : string) (env : Env) (w : World) :
  (String.length date_str < 8 \/ 10 < String.length date_str)%nat ->
  BaseScraper._parse_date date_str env w
  = (Ok (mk_datetime (wall_clock env (ticks w)) (if USE_TZ env then Some UTC else None)),
     tick w).
Proof.
  intros Hlen. rewrite parse_date_run.
  rewrite first_matching_format_None; [reflexivity |].
  intros fmt Hin. destruct (strptime date_str fmt) as [dt |] eqn:Hs; [| reflexivity].
  exfalso.
  destruct (date_formats_bounds fmt Hin) as (items & Hp & Hmin & Hmax).
  pose proof (strptime_length _ _ _ _ Hp Hs) as Hb.
  rewrite Hmin, Hmax in Hb. lia.
Qed.

Lemma parse_date_length_fallback_witness :
  (String.length "2024-03-15T10:30:00" < 8 \/ 10 < String.length "2024-03-15T10:30:00")%nat
  /\ BaseScraper._parse_date "2024-03-15T10:30:00" env_sample world0
     = (Ok (mk_datetime (wall_clock env_sample (ticks world0))
              (if USE_TZ env_sample then Some UTC else None)),
        tick world0).
Proof.
  split; [right; simpl; lia |].
  apply (parse_date_length_fallback "2024-03-15T10:30:00" env_sample world0).
  right. simpl. lia.
Defined.

(** X7. [_parse_date] never logs, sleeps, sends a request or draws a
    random number, and never raises: the warning of its outer handler
    cannot occur for a string.  It reads the clock once when no format
    matches and not at all otherwise. *)
Theorem parse_date_effects (date_str : string) (env : Env) (w : World) :
  exists dt w',
    BaseScraper._parse_date date_str env w = (Ok dt, w')
    /\ logged w' = logged w
    /\ slept w' = slept w
    /\ gets w' = gets w
    /\ draws w' = draws w
    /\ ticks w' = (ticks w + match first_matching_format date_str DATE_FORMATS with
                           | Some _ => 0
                           | None => 1
                           end)%nat.
Proof.
  rewrite parse_date_run.
  destruct (first_matching_format date_str DATE_FORMATS) as [dt |].
  - exists dt, w. repeat split. lia.
  - eexists _, _. split; [reflexivity |]. simpl. repeat split. lia.
Qed.

(** ** Reading a written date *)

Lemma digit_cases k : 0 <= k <= 9 ->
  k = 0 \/ k = 1 \/ k = 2 \/ k = 3 \/ k = 4 \/ k = 5 \/ k = 6 \/ k = 7 \/ k = 8 \/ k = 9.
Proof. lia. Qed.

Lemma dchar_digit k : 0 <= k <= 9 ->
  in_class digit (dchar k) = true
  /\ Ascii.eqb (dchar k) " " = false
  /\ Z.of_N (N_of_ascii (dchar k)) - 48 = k.
Proof.
  intros Hk. destruct (digit_cases k Hk) as [-> | [-> | [-> | [-> | [-> | [-> | [-> | [-> | [-> | ->]]]]]]]]];
    repeat split.
Qed.

Lemma re_match_group name alts items s :
  re_match (Group name alts :: items) s =
  first_of (fun alt =>
    match match_alt alt s with
    | Some (txt, s') =>
        match re_match items s' with
        | Some (found, rest) => Some ((name, txt) :: found, rest)
        | None => None
        end
    | None => None
    end) alts.
Proof. reflexivity. Qed.

Lemma re_match_lit c items rest : re_match (Lit c :: items) (c :: rest) = re_match items rest.
Proof. simpl. rewrite Ascii.eqb_refl. reflexivity. Qed.

Lemma year_group year items rest found r :
  0 <= year <= 9999 ->
  re_match items rest = Some (found, r) ->
  re_match (Group "Y" year_alts :: items) (four_digits year ++ rest)
  = Some (("Y"%char, four_digits year) :: found, r).
Proof.
  intros Hy Hrest. rewrite re_match_group. unfold year_alts, four_digits.
  cbn [first_of match_alt app].
  assert (Ha : 0 <= year / 1000 <= 9) by (Z.div_mod_to_equations; lia).
  assert (Hb : 0 <= year / 100 mod 10 <= 9) by (pose proof (Z.mod_pos_bound (year / 100) 10); lia).
  assert (Hc : 0 <= year / 10 mod 10 <= 9) by (pose proof (Z.mod_pos_bound (year / 10) 10); lia).
  assert (He : 0 <= year mod 10 <= 9) by (pose proof (Z.mod_pos_bound year 10); lia).
  rewrite (proj1 (dchar_digit _ Ha)), (proj1 (dchar_digit _ Hb)),
          (proj1 (dchar_digit _ Hc)), (proj1 (dchar_digit _ He)).
  rewrite Hrest. reflexivity.
Qed.

Lemma four_digits_int year : 0 <= year <= 9999 -> int_digits (four_digits year) = year.
Proof.
  intros Hy. unfold int_digits, four_digits. cbn [fold_left].
  assert (Ha : 0 <= year / 1000 <= 9) by (Z.div_mod_to_equations; lia).
  assert (Hb : 0 <= year / 100 mod 10 <= 9) by (pose proof (Z.mod_pos_bound (year / 100) 10); lia).
  assert (Hc : 0 <= year / 10 mod 10 <= 9) by (pose proof (Z.mod_pos_bound (year / 10) 10); lia).
  assert (He : 0 <= year mod 10 <= 9) by (pose proof (Z.mod_pos_bound year 10); lia).
  destruct (dchar_digit _ Ha) as (_ & -> & ->), (dchar_digit _ Hb) as (_ & -> & ->),
           (dchar_digit _ Hc) as (_ & -> & ->), (dchar_digit _ He) as (_ & -> & ->).
  clear Ha Hb Hc He. Z.div_mod_to_equations. lia.
Qed.

Lemma month_group month items rest found r :
  1 <= month <= 12 ->
  re_match items rest = Some (found, r) ->
  re_match (Group "m" month_alts :: items) (two_digits month ++ rest)
  = Some (("m"%char, two_digits month) :: found, r)
  /\ int_digits (two_digits month) = month.
Proof.
  intros Hm Hrest. rewrite re_match_group.
  assert (Hcases : In month [1; 2; 3; 4; 5; 6; 7; 8; 9; 10; 11; 12]) by (simpl; lia).
  simpl in Hcases.
  repeat (destruct Hcases as [<- | Hcases]; [simpl; rewrite Hrest; split; reflexivity |]).
  destruct Hcases.
Qed.

Lemma day_group day items rest found r :
  1 <= day <= 31 ->
  re_match items rest = Some (found, r) ->
  re_match (Group "d" day_alts :: items) (two_digits day ++ rest)
  = Some (("d"%char, two_digits day) :: found, r)
  /\ int_digits (two_digits day) = day.
Proof.
  intros Hd Hrest. rewrite re_match_group.
  assert (Hcases : In day [1; 2; 3; 4; 5; 6; 7; 8; 9; 10; 11; 12; 13; 14; 15; 16; 17; 18; 19; 20;
                           21; 22; 23; 24; 25; 26; 27; 28; 29; 30; 31]) by (simpl; lia).
  simpl in Hcases.
  repeat (destruct Hcases as [<- | Hcases]; [simpl; rewrite Hrest; split; reflexivity |]).
  destruct Hcases.
Qed.

Lemma days_in_month_bounds year month :
  1 <= month <= 12 -> 28 <= _days_in_month year month <= 31.
Proof.
  intros Hm. unfold _days_in_month.
  assert (Hcases : In month [1; 2; 3; 4; 5; 6; 7; 8; 9; 10; 11; 12]) by (simpl; lia).
  simpl in Hcases.
  repeat (destruct Hcases as [<- | Hcases];
          [destruct (_is_leap year); simpl; lia |]).
  destruct Hcases.
Qed.

Lemma check_valid_date year month day :
  valid_date year month day -> _check_date_fields year month day = Ok tt.
Proof.
  intros (Hy & Hm & Hd). unfold _check_date_fields, MINYEAR, MAXYEAR.
  replace ((1 <=? year) && (year <=? 9999)) with true
    by (symmetry; apply andb_true_intro; split; apply Z.leb_le; lia).
  replace ((1 <=? month) && (month <=? 12)) with true
    by (symmetry; apply andb_true_intro; split; apply Z.leb_le; lia).
  replace ((1 <=? day) && (day <=? _days_in_month year month)) with true
    by (symmetry; apply andb_true_intro; split; apply Z.leb_le; lia).
  reflexivity.
Qed.

Lemma pattern_iso : pattern (list_ascii_of_string "%Y-%m-%d")
  = inr [Group "Y" year_alts; Lit "-"; Group "m" month_alts; Lit "-"; Group "d" day_alts].
Proof. reflexivity. Qed.

Lemma pattern_day_first : pattern (list_ascii_of_string "%d/%m/%Y")
  = inr [Group "d" day_alts; Lit "/"; Group "m" month_alts; Lit "/"; Group "Y" year_alts].
Proof. reflexivity. Qed.

Lemma pattern_month_first : pattern (list_ascii_of_string "%m/%d/%Y")
  = inr [Group "m" month_alts; Lit "/"; Group "d" day_alts; Lit "/"; Group "Y" year_alts].
Proof. reflexivity. Qed.

Lemma strptime_iso_text year month day :
  valid_date year month day ->
  strptime (iso_text year month day) "%Y-%m-%d" = Ok (midnight year month day).
Proof.
  intros Hv. pose proof Hv as (Hy & Hm & Hd).
  pose proof (days_in_month_bounds year month Hm) as Hdim.
  unfold strptime, iso_text. rewrite pattern_iso, list_ascii_of_string_of_list_ascii.
  destruct (day_group day [] [] [] [] ltac:(lia) eq_refl) as [Hday Hdint].
  rewrite <- (re_match_lit "-") in Hday.
  destruct (month_group month _ _ _ _ Hm Hday) as [Hmonth Hmint].
  rewrite <- (re_match_lit "-") in Hmonth.
  pose proof (year_group year _ _ _ _ ltac:(lia) Hmonth) as Hyear.
  rewrite app_nil_r in Hyear. rewrite Hyear.
  cbn [group_int Ascii.eqb Bool.eqb]. 
  rewrite four_digits_int by lia. rewrite Hmint, Hdint.
  rewrite (check_valid_date _ _ _ Hv). reflexivity.
Qed.

Lemma strptime_slash_day_first year month day :
  valid_date year month day ->
  strptime (slash_text day month year) "%d/%m/%Y" = Ok (midnight year month day).
Proof.
  intros Hv. pose proof Hv as (Hy & Hm & Hd).
  pose proof (days_in_month_bounds year month Hm) as Hdim.
  unfold strptime, slash_text. rewrite pattern_day_first, list_ascii_of_string_of_list_ascii.
  pose proof (year_group year [] [] [] [] ltac:(lia) eq_refl) as Hyear.
  rewrite <- (re_match_lit "/") in Hyear.
  destruct (month_group month _ _ _ _ Hm Hyear) as [Hmonth Hmint].
  rewrite <- (re_match_lit "/") in Hmonth.
  destruct (day_group day _ _ _ _ ltac:(lia) Hmonth) as [Hday Hdint].
  rewrite app_nil_r in Hday. rewrite Hday.
  cbn [group_int Ascii.eqb Bool.eqb].
  rewrite four_digits_int by lia. rewrite Hmint, Hdint.
  rewrite (check_valid_date _ _ _ Hv). reflexivity.
Qed.

Lemma strptime_slash_month_first year month day :
  valid_date year month day ->
  strptime (slash_text month day year) "%m/%d/%Y" = Ok (midnight year month day).
Proof.
  intros Hv. pose proof Hv as (Hy & Hm & Hd).
  pose proof (days_in_month_bounds year month Hm) as Hdim.
  unfold strptime, slash_text. rewrite pattern_month_first, list_ascii_of_string_of_list_ascii.
  pose proof (year_group year [] [] [] [] ltac:(lia) eq_refl) as Hyear.
  rewrite <- (re_match_lit "/") in Hyear.
  destruct (day_group day _ _ _ _ ltac:(lia) Hyear) as [Hday Hdint].
  rewrite <- (re_match_lit "/") in Hday.
  destruct (month_group month _ _ _ _ Hm Hday) as [Hmonth Hmint].
  rewrite app_nil_r in Hmonth. rewrite Hmonth.
  cbn [group_int Ascii.eqb Bool.eqb].
  rewrite four_digits_int by lia. rewrite Hmint, Hdint.
  rewrite (check_valid_date _ _ _ Hv). reflexivity.
Qed.

Lemma iso_rejects_slash_text first second year :
  exists e, strptime (slash_text first second year) "%Y-%m-%d" = Raise e.
Proof.
  unfold strptime, slash_text. rewrite pattern_iso, list_ascii_of_string_of_list_ascii.
  rewrite re_match_group. unfold year_alts, two_digits. cbn [first_of match_alt app].
  destruct (in_class digit (dchar (first / 10))); [| eexists; reflexivity].
  destruct (in_class digit (dchar (first mod 10))); eexists; reflexivity.
Qed.

Lemma day_first_rejects month day year :
  1 <= month <= 12 -> 12 < day <= 31 ->
  exists e, strptime (slash_text month day year) "%d/%m/%Y" = Raise e.
Proof.
  intros Hm Hd.
  unfold strptime, slash_text. rewrite pattern_day_first, list_ascii_of_string_of_list_ascii.
  assert (Hnone : re_match [Group "d" day_alts; Lit "/"; Group "m" month_alts; Lit "/";
                            Group "Y" year_alts]
                    (two_digits month ++ "/"%char :: two_digits day ++ "/"%char :: four_digits year)
                  = None).
  { assert (Hmc : In month [1; 2; 3; 4; 5; 6; 7; 8; 9; 10; 11; 12]) by (simpl; lia).
    assert (Hdc : In day [13; 14; 15; 16; 17; 18; 19; 20; 21; 22; 23; 24; 25; 26; 27; 28; 29;
                          30; 31]) by (simpl; lia).
    simpl in Hmc, Hdc.
    repeat (destruct Hmc as [<- | Hmc];
            [repeat (destruct Hdc as [<- | Hdc]; [reflexivity |]); destruct Hdc |]).
    destruct Hmc. }
  rewrite Hnone. eexists. reflexivity.
Qed.

Lemma parse_day_first year month day env w :
  valid_date year month day ->
  BaseScraper._parse_date (slash_text day month year) env w = (Ok (midnight year month day), w).
Proof.
  intros Hv. rewrite parse_date_run. unfold DATE_FORMATS. cbn [first_matching_format].
  destruct (iso_rejects_slash_text day month year) as (e & ->).
  rewrite (strptime_slash_day_first _ _ _ Hv). reflexivity.
Qed.

(** X8. A date of the calendar with a year from 1 to 9999, written as
    YYYY-MM-DD with leading zeros, is parsed to midnight of that date, and
    the world is left as it was. *)
Theorem parse_date_iso_round_trip (year month day : Z) (env : Env) (w : World) :
  valid_date year month day ->
  BaseScraper._parse_date (iso_text year month day) env w = (Ok (midnight year month day), w).
Proof.
  intros Hv. rewrite parse_date_run. unfold DATE_FORMATS. cbn [first_matching_format].
  rewrite (strptime_iso_text _ _ _ Hv). reflexivity.
Qed.

Lemma parse_date_iso_round_trip_witness :
  valid_date 2024 2 29
  /\ iso_text 2024 2 29 = "2024-02-29"
  /\ BaseScraper._parse_date (iso_text 2024 2 29) env_sample world0
     = (Ok (midnight 2024 2 29), world0).
Proof.
  assert (Hv : valid_date 2024 2 29) by (unfold valid_date; vm_compute; intuition discriminate).
  split; [exact Hv |]. split; [reflexivity |].
  apply (parse_date_iso_round_trip 2024 2 29 env_sample world0 Hv).
Defined.

(** X9. A date of the calendar written day first, as DD/MM/YYYY with
    leading zeros, is parsed to midnight of that date. *)
Theorem parse_date_day_first_round_trip (year month day : Z) (env : Env) (w : World) :
  valid_date year month day ->
  BaseScraper._parse_date (slash_text day month year) env w = (Ok (midnight year month day), w).
Proof. apply parse_day_first. Qed.

Lemma parse_date_day_first_round_trip_witness :
  valid_date 2024 12 31
  /\ slash_text 31 12 2024 = "31/12/2024"
  /\ BaseScraper._parse_date (slash_text 31 12 2024) env_sample world0
     = (Ok (midnight 2024 12 31), world0).
Proof.
  assert (Hv : valid_date 2024 12 31) by (unfold valid_date; vm_compute; intuition discriminate).
  split; [exact Hv |]. split; [reflexivity |].
  apply (parse_date_day_first_round_trip 2024 12 31 env_sample world0 Hv).
Defined.

(** X10. A date of the calendar written month first, as MM/DD/YYYY, is
    parsed to that date only when its day is above 12.  With a day of 12
    or less it is read day first: the result is the date whose day is the
    month written and whose month is the day written. *)
Theorem parse_date_month_first (year month day : Z) (env : Env) (w : World) :
  valid_date year month day ->
  BaseScraper._parse_date (slash_text month day year) env w
  = (Ok (if 12 <? day then midnight year month day else midnight year day month), w).
Proof.
  intros Hv. pose proof Hv as (Hy & Hm & Hd).
  pose proof (days_in_month_bounds year month Hm) as Hdim.
  destruct (12 <? day) eqn:Hlate.
  - apply Z.ltb_lt in Hlate.
    rewrite parse_date_run. unfold DATE_FORMATS. cbn [first_matching_format].
    destruct (iso_rejects_slash_text month day year) as (e & ->).
    destruct (day_first_rejects month day year Hm ltac:(lia)) as (e' & ->).
    rewrite (strptime_slash_month_first _ _ _ Hv). reflexivity.
  - apply Z.ltb_ge in Hlate. apply parse_day_first.
    pose proof (days_in_month_bounds year day ltac:(lia)).
    unfold valid_date. lia.
Qed.

Lemma parse_date_month_first_witness :
  valid_date 2024 3 4 /\ valid_date 2024 3 15
  /\ slash_text 3 4 2024 = "03/04/2024"
  /\ BaseScraper._parse_date (slash_text 3 4 2024) env_sample world0
     = (Ok (midnight 2024 4 3), world0)
  /\ BaseScraper._parse_date (slash_text 3 15 2024) env_sample world0
     = (Ok (midnight 2024 3 15), world0).
Proof.
  assert (Hv1 : valid_date 2024 3 4) by (unfold valid_date; vm_compute; intuition discriminate).
  assert (Hv2 : valid_date 2024 3 15) by (unfold valid_date; vm_compute; intuition discriminate).
  split; [exact Hv1 |]. split; [exact Hv2 |]. split; [reflexivity |]. split.
  - apply (parse_date_month_first 2024 3 4 env_sample world0 Hv1).
  - apply (parse_date_month_first 2024 3 15 env_sample world0 Hv2).
Defined.

(** ** Dates that do not exist *)

Lemma dchar_not_slash k : 0 <= k <= 9 -> Ascii.eqb "/" (dchar k) = false.
Proof.
  intros Hk. destruct (digit_cases k Hk) as [-> | [-> | [-> | [-> | [-> | [-> | [-> | [-> | [-> | ->]]]]]]]]];
    reflexivity.
Qed.

(** A group of one or two characters in front of a slash does not match
    in front of two digits. *)
Lemma slash_format_rejects_digits name alts items c b c' rest :
  Forall (fun alt => length alt = 1%nat \/ length alt = 2%nat) alts ->
  0 <= b <= 9 -> 0 <= c' <= 9 ->
  re_match (Group name alts :: Lit "/" :: items) (c :: dchar b :: dchar c' :: rest) = None.
Proof.
  intros Halts Hb Hc. rewrite re_match_group.
  induction Halts as [| alt alts Hlen _ IH]; [reflexivity |].
  cbn [first_of]. rewrite IH.
  destruct alt as [| k1 [| k2 [| k3 alt]]]; simpl in Hlen; try lia.
  - cbn [match_alt re_match]. destruct (in_class k1 c); [| reflexivity].
    rewrite (dchar_not_slash b Hb). reflexivity.
  - cbn [match_alt re_match]. destruct (in_class k1 c); [| reflexivity].
    destruct (in_class k2 (dchar b)); [| reflexivity].
    rewrite (dchar_not_slash c' Hc). reflexivity.
Qed.

Lemma slash_formats_reject_iso year month day fmt :
  0 <= year <= 9999 ->
  fmt = "%d/%m/%Y" \/ fmt = "%m/%d/%Y" ->
  exists e, strptime (iso_text year month day) fmt = Raise e.
Proof.
  intros Hy Hfmt.
  assert (Hb : 0 <= year / 100 mod 10 <= 9) by (pose proof (Z.mod_pos_bound (year / 100) 10); lia).
  assert (Hc : 0 <= year / 10 mod 10 <= 9) by (pose proof (Z.mod_pos_bound (year / 10) 10); lia).
  unfold strptime, iso_text. rewrite list_ascii_of_string_of_list_ascii.
  destruct Hfmt as [-> | ->].
  - rewrite pattern_day_first. unfold four_digits. cbn [app].
    rewrite slash_format_rejects_digits; [eexists; reflexivity | | exact Hb | exact Hc].
    unfold day_alts. repeat constructor; simpl; lia.
  - rewrite pattern_month_first. unfold four_digits. cbn [app].
    rewrite slash_format_rejects_digits; [eexists; reflexivity | | exact Hb | exact Hc].
    unfold month_alts. repeat constructor; simpl; lia.
Qed.

Lemma check_invalid_date year month day :
  ~ valid_date year month day ->
  exists e, _check_date_fields year month day = Raise e.
Proof.
  intros Hinv. unfold _check_date_fields, MINYEAR, MAXYEAR.
  destruct ((1 <=? year) && (year <=? 9999)) eqn:Hy; [| eexists; reflexivity].
  destruct ((1 <=? month) && (month <=? 12)) eqn:Hm; [| eexists; reflexivity].
  destruct ((1 <=? day) && (day <=? _days_in_month year month)) eqn:Hd; [| eexists; reflexivity].
  exfalso. apply Hinv. unfold valid_date.
  apply andb_prop in Hy, Hm, Hd. destruct Hy, Hm, Hd. lia.
Qed.

(** X19. A text in the form YYYY-MM-DD whose numbers are no date of the
    calendar, such as the 30th of February, the 29th of February of a
    year that is not a leap year, or a day of the year 0000, is not an
    error: [_parse_date] answers with the current time. *)
Theorem parse_date_impossible_date (year month day : Z) (env : Env) (w : World) :
  0 <= year <= 9999 -> 1 <= month <= 12 -> 1 <= day <= 31 ->
  ~ valid_date year month day ->
  BaseScraper._parse_date (iso_text year month day) env w
  = (Ok (mk_datetime (wall_clock env (ticks w)) (if USE_TZ env then Some UTC else None)),
     tick w).
Proof.
  intros Hy Hm Hd Hinv. rewrite parse_date_run.
  rewrite first_matching_format_None; [reflexivity |].
  intros fmt [<- | [<- | [<- | []]]].
  - unfold strptime, iso_text. rewrite pattern_iso, list_ascii_of_string_of_list_ascii.
    destruct (day_group day [] [] [] [] Hd eq_refl) as [Hday Hdint].
    rewrite <- (re_match_lit "-") in Hday.
    destruct (month_group month _ _ _ _ Hm Hday) as [Hmonth Hmint].
    rewrite <- (re_match_lit "-") in Hmonth.
    pose proof (year_group year _ _ _ _ Hy Hmonth) as Hyear.
    rewrite app_nil_r in Hyear. rewrite Hyear.
    cbn [group_int Ascii.eqb Bool.eqb].
    rewrite four_digits_int by lia. rewrite Hmint, Hdint.
    destruct (check_invalid_date _ _ _ Hinv) as (e & ->). reflexivity.
  - destruct (slash_formats_reject_iso year month day "%d/%m/%Y" Hy (or_introl eq_refl)) as (e & ->).
    reflexivity.
  - destruct (slash_formats_reject_iso year month day "%m/%d/%Y" Hy (or_intror eq_refl)) as (e & ->).
    reflexivity.
Qed.

Lemma parse_date_impossible_date_witness :
  (0 <= 2023 <= 9999 /\ 1 <= 2 <= 12 /\ 1 <= 29 <= 31 /\ ~ valid_date 2023 2 29)
  /\ iso_text 2023 2 29 = "2023-02-29"
  /\ BaseScraper._parse_date (iso_text 2023 2 29) env_sample world0
     = (Ok (mk_datetime (wall_clock env_sample (ticks world0))
              (if USE_TZ env_sample then Some UTC else None)),
        tick world0).
Proof.
  assert (Hinv : ~ valid_date 2023 2 29).
  { unfold valid_date. vm_compute. intros (_ & _ & _ & Hd). apply Hd. reflexivity. }
  split; [repeat split; try lia; exact Hinv |]. split; [reflexivity |].
  apply (parse_date_impossible_date 2023 2 29 env_sample world0); try lia. exact Hinv.
Defined.

(** ** The effects of a scrape *)

Lemma scrape_with_unfold {E} `{Soup E} label url cls (extract : E -> M World (option Article))
    env w :
  scrape_with label url cls extract env w =
  match BaseScraper._make_request url 10 env
          (logging INFO ("Starting " +:+ label +:+ " scraping...") w) with
  | (Ok None, w1) => (Ok [], w1)
  | (Raise e, w1) =>
      (Ok [], logging INFO ("Scraped " +:+ pretty (length (@nil Article)) +:+ " articles from " +:+ label)
                (logging ERROR ("Error scraping " +:+ label +:+ ": " +:+ exn_msg e) w1))
  | (Ok (Some response), w1) =>
      if Response_bool response then
        match BeautifulSoup (content response) "lxml" with
        | Raise e =>
            (Ok [], logging INFO ("Scraped " +:+ pretty (length (@nil Article)) +:+ " articles from " +:+ label)
                      (logging ERROR ("Error scraping " +:+ label +:+ ": " +:+ exn_msg e) w1))
        | Ok soup =>
            match find_all soup "div" [("class", cls)] with
            | Raise e =>
                (Ok [], logging INFO ("Scraped " +:+ pretty (length (@nil Article)) +:+ " articles from " +:+ label)
                          (logging ERROR ("Error scraping " +:+ label +:+ ": " +:+ exn_msg e) w1))
            | Ok found =>
                match for_in (take 20 found) (scrape_step extract) env ([], w1) with
                | (Ok Next, (articles, w2)) =>
                    (Ok articles,
                     logging INFO ("Scraped " +:+ pretty (length articles) +:+ " articles from " +:+ label) w2)
                | (Ok (Return articles'), (articles, w2)) => (Ok articles', w2)
                | (Raise e, (articles, w2)) =>
                    (Ok articles,
                     logging INFO ("Scraped " +:+ pretty (length articles) +:+ " articles from " +:+ label)
                       (logging ERROR ("Error scraping " +:+ label +:+ ": " +:+ exn_msg e) w2))
                end
            end
        end
      else (Ok [], w1)
  end.
Proof.
  unfold scrape_with, logging. run_all.
  destruct (BaseScraper._make_request url 10 env _) as [[[response |] | e] w1]; try reflexivity.
  destruct (Response_bool response); run_all; [| reflexivity].
  destruct (BeautifulSoup (content response) "lxml") as [soup | e]; [| reflexivity].
  destruct (find_all soup "div" _) as [found | e]; [| reflexivity].
  destruct (for_in (take 20 found) (scrape_step extract) env ([], w1))
    as [[[| articles'] | e] [articles w2]]; reflexivity.
Qed.

Lemma randint_range a b bits : a <= b ->
  a <= randint_of_bits a b bits <= b.
Proof.
  intros Hab. unfold randint_of_bits.
  pose proof (Z.mod_pos_bound (Z.of_N bits) (b - a + 1) ltac:(lia)). lia.
Qed.

Ltac quiet_none := eexists _, _; split; [reflexivity |]; simpl; repeat split.

Ltac quiet_some env w :=
  eexists _, _; split; [reflexivity |]; simpl; repeat split;
  exists (ticks w), (randint_of_bits 1 24 (getrandbits env (draws w)));
  split; [lia |]; split; [apply randint_range; lia | reflexivity].

Section QuietExtractors.
Context {E : Type} `{Soup E}.

Lemma inshorts_extract_quiet : quiet InShortsScaper._extract_article_data.
Proof.
  intros card env w. unfold InShortsScaper._extract_article_data. run.
  destruct (find card "span" _) as [title_elem | e]; [| quiet_none].
  destruct (find card "div" _) as [summary_elem | e]; [| quiet_none].
  destruct (find card "a" _) as [url_elem | e]; [| quiet_none].
  destruct title_elem as [title_elem |], summary_elem as [summary_elem |],
           url_elem as [url_elem |]; try quiet_none.
  destruct (get_text title_elem) as [title | e]; [| quiet_none].
  destruct (get_text summary_elem) as [summary | e]; [| quiet_none].
  destruct (get url_elem "href" "") as [url | e]; [quiet_some env w | quiet_none].
Qed.

Lemma ht_extract_quiet : quiet HindustanTimesScaper._extract_article_data.
Proof.
  intros element env w. unfold HindustanTimesScaper._extract_article_data. run.
  destruct (find element "h3" _) as [title_elem | e]; [| quiet_none].
  destruct (find element "p" _) as [summary_elem | e]; [| quiet_none].
  destruct (find element "a" _) as [link_elem | e]; [| quiet_none].
  destruct title_elem as [title_elem |], link_elem as [link_elem |]; try quiet_none.
  destruct summary_elem as [summary_elem |].
  - destruct (get_text summary_elem) as [summary | e]; [| quiet_none].
    destruct (get_text title_elem) as [title | e]; [| quiet_none].
    destruct (get link_elem "href" "") as [url | e]; [quiet_some env w | quiet_none].
  - destruct (get_text title_elem) as [title | e]; [| quiet_none].
    destruct (get link_elem "href" "") as [url | e]; [quiet_some env w | quiet_none].
Qed.

Lemma site_extract_quiet s : quiet (site_extract s).
Proof. destruct s; [apply inshorts_extract_quiet | apply ht_extract_quiet]. Qed.

End QuietExtractors.

Lemma stamped_wider env lo hi lo' hi' span a :
  (lo' <= lo)%nat -> (hi <= hi')%nat -> stamped env lo hi span a -> stamped env lo' hi' span a.
Proof.
  intros Hlo Hhi (k & hours & Hk & Hh & Hp). exists k, hours. repeat split; try lia. exact Hp.
Qed.

Lemma scrape_loop_quiet {E} (extract : E -> M World (option Article)) :
  quiet extract ->
  forall cards env articles w,
  exists new w',
    for_in cards (scrape_step extract) env (articles, w) = (Ok Next, ((articles ++ new)%list, w'))
    /\ gets w' = gets w /\ slept w' = slept w
    /\ ticks w' = (ticks w + length new)%nat
    /\ (length new <= length cards)%nat
    /\ Forall (stamped env (ticks w) (ticks w') 24) new.
Proof.
  intros Hq cards env. induction cards as [| card cards IH]; intros articles w.
  - exists [], w. rewrite app_nil_r. simpl. repeat split; try lia. constructor.
  - destruct (Hq card env w) as (article & w1 & Hx & Hg & Hs & Heff).
    rewrite for_in_cons. unfold scrape_step at 1. run. simpl snd. rewrite Hx.
    destruct article as [a |]; simpl.
    + destruct Heff as (Ht & _ & Hst).
      destruct (IH (articles ++ [a])%list w1) as (new & w' & Hrun & Hg' & Hs' & Ht' & Hlen & Hall).
      exists (a :: new), w'. rewrite Hrun, <- app_assoc. split; [reflexivity |].
      simpl. repeat split; try lia; try congruence.
      constructor.
      * eapply stamped_wider; [| | exact Hst]; lia.
      * eapply Forall_impl; [exact Hall |]. intros a'. apply stamped_wider; lia.
    + destruct Heff as (Ht & _).
      destruct (IH articles w1) as (new & w' & Hrun & Hg' & Hs' & Ht' & Hlen & Hall).
      exists new, w'. rewrite Hrun. split; [reflexivity |].
      simpl. repeat split; try lia; congruence.
Qed.

Section ScrapeEffects.
Context {E : Type} `{Soup E}.

Lemma scrape_with_quiet label url cls (extract : E -> M World (option Article)) env w :
  quiet extract ->
  exists articles w',
    scrape_with label url cls extract env w = (Ok articles, w')
    /\ (length articles <= 20)%nat
    /\ (gets w < gets w' <= gets w + 3)%nat
    /\ (length (slept w') <= length (slept w) + 2)%nat
    /\ ticks w' = (ticks w + length articles)%nat
    /\ Forall (stamped env (ticks w) (ticks w') 24) articles.
Proof.
  intros Hq. rewrite scrape_with_unfold.
  destruct (make_request_bounds url 10 env
              (logging INFO ("Starting " +:+ label +:+ " scraping...") w))
    as (result & w1 & delays & Hreq & Hgets & Hticks & Hslept & Hlen & _).
  rewrite Hreq. simpl in Hgets, Hticks, Hslept, Hlen.
  assert (Hsl : (length (slept w1) <= length (slept w) + 2)%nat)
    by (rewrite Hslept, length_app; lia).
  assert (Hempty : forall w', gets w' = gets w1 -> slept w' = slept w1 -> ticks w' = ticks w1 ->
            (length (@nil Article) <= 20)%nat
            /\ (gets w < gets w' <= gets w + 3)%nat
            /\ (length (slept w') <= length (slept w) + 2)%nat
            /\ ticks w' = (ticks w + length (@nil Article))%nat
            /\ Forall (stamped env (ticks w) (ticks w') 24) []).
  { intros w' Hg Hs Ht. simpl. rewrite Hg, Hs, Ht. repeat split; try lia. constructor. }
  destruct result as [[response |] | e].
  - destruct (Response_bool response).
    + destruct (BeautifulSoup (content response) "lxml") as [soup | e];
        [| eexists _, _; split; [reflexivity | apply Hempty; reflexivity]].
      destruct (find_all soup "div" _) as [found | e];
        [| eexists _, _; split; [reflexivity | apply Hempty; reflexivity]].
      destruct (scrape_loop_quiet extract Hq (take 20 found) env [] w1)
        as (new & w2 & Hloop & Hg & Hs & Ht & Hn & Hall).
      rewrite Hloop. simpl app. eexists _, _. split; [reflexivity |].
      rewrite length_take in Hn. simpl. rewrite Hg, Hs, Ht, Hticks.
      repeat split; try lia.
      rewrite <- Hticks, <- Ht. exact Hall.
    + eexists _, _; split; [reflexivity | apply Hempty; reflexivity].
  - eexists _, _; split; [reflexivity | apply Hempty; reflexivity].
  - eexists _, _; split; [reflexivity | apply Hempty; reflexivity].
Qed.

(** X11. A scrape of a site returns at most 20 records.  It sends at
    least one and at most three requests, sleeps at most twice, and reads
    the clock once for each record it returns and at no other time. *)
Theorem scrape_articles_budget (s : site) (env : Env) (w : World) :
  exists articles w',
    site_scrape s env w = (Ok articles, w')
    /\ (length articles <= 20)%nat
    /\ (gets w < gets w' <= gets w + 3)%nat
    /\ (length (slept w') <= length (slept w) + 2)%nat
    /\ ticks w' = (ticks w + length articles)%nat.
Proof.
  rewrite site_scrape_shape.
  destruct (scrape_with_quiet (site_label s) (site_url s) (site_class s) (site_extract s) env w
              (site_extract_quiet s))
    as (articles & w' & Hrun & Hlen & Hgets & Hslept & Hticks & _).
  exists articles, w'. repeat split; assumption || lia.
Qed.

(** X12. The timestamp of every record that a scrape of a site returns is
    a reading of the clock taken during that scrape, less a whole number
    of hours from 1 to 24, and it carries the UTC zone exactly when
    [USE_TZ] is on. *)
Theorem scrape_articles_timestamps (s : site) (env : Env) (w : World) :
  exists articles w',
    site_scrape s env w = (Ok articles, w')
    /\ Forall (stamped env (ticks w) (ticks w') 24) articles.
Proof.
  rewrite site_scrape_shape.
  destruct (scrape_with_quiet (site_label s) (site_url s) (site_class s) (site_extract s) env w
              (site_extract_quiet s))
    as (articles & w' & Hrun & _ & _ & _ & _ & Hall).
  exists articles, w'. split; assumption.
Qed.

(** X13. Unless a document is fetched and its containers are found, a
    scrape of a site returns the empty list: a failed request, a response
    that cannot be parsed and a failing search all end in no record and
    no exception. *)
Theorem scrape_without_document (s : site) (env : Env) (w : World) :
  (forall found w1, ~ fetches s env w found w1) ->
  exists w', site_scrape s env w = (Ok [], w').
Proof.
  intros Hno. rewrite site_scrape_shape, scrape_with_unfold.
  destruct (BaseScraper._make_request (site_url s) 10 env _) as [[[response |] | e] w1] eqn:Hreq;
    try (eexists; reflexivity).
  destruct (Response_bool response); [| eexists; reflexivity].
  destruct (BeautifulSoup (content response) "lxml") as [soup | e] eqn:Hsoup;
    [| eexists; reflexivity].
  destruct (find_all soup "div" _) as [found | e] eqn:Hfind; [| eexists; reflexivity].
  exfalso. apply (Hno found w1). exists response, soup.
  split; [exact Hreq |]. split; assumption.
Qed.

(** X14. When the three requests of a scrape fail at the transport level,
    the scrape returns the empty list at once: the log ends with the
    error line of [_make_request], and the closing line that counts the
    scraped articles is not written. *)
Theorem scrape_after_exhaustion (s : site) (env : Env) (w : World) :
  (forall k, (k < 3)%nat ->
     transport_failure (session_get env (k + gets w)%nat (site_url s) 10)) ->
  exists w' e1 e2 e3,
    site_scrape s env w = (Ok [], w')
    /\ gets w' = (3 + gets w)%nat
    /\ logged w' =
       (logged w ++
        [(INFO, "Starting " +:+ site_label s +:+ " scraping...");
         (WARNING, "Request attempt 1 failed for " +:+ site_url s +:+ ": " +:+ exn_msg e1);
         (WARNING, "Request attempt 2 failed for " +:+ site_url s +:+ ": " +:+ exn_msg e2);
         (WARNING, "Request attempt 3 failed for " +:+ site_url s +:+ ": " +:+ exn_msg e3);
         (ERROR, "All retry attempts failed for " +:+ site_url s)])%list.
Proof.
  intros Hfail. rewrite site_scrape_shape, scrape_with_unfold.
  destruct (make_request_exhausted (site_url s) 10 env
              (logging INFO ("Starting " +:+ site_label s +:+ " scraping...") w) Hfail)
    as (e1 & e2 & e3 & _ & _ & _ & Hreq).
  rewrite Hreq. eexists _, e1, e2, e3. split; [reflexivity |]. split; [reflexivity |].
  unfold after_give_up, after_retry, logging. cbn [logged]. rewrite <- !app_assoc. reflexivity.
Qed.

End ScrapeEffects.

Lemma scrape_without_document_witness :
  (forall found w1, ~ @fetches bs4.node sample_soup InShorts env_down world0 found w1)
  /\ exists w', @site_scrape bs4.node sample_soup InShorts env_down world0 = (Ok [], w').
Proof.
  assert (Hno : forall found w1, ~ @fetches bs4.node sample_soup InShorts env_down world0 found w1).
  { intros found w1 (response & soup & Hreq & _). vm_compute in Hreq. discriminate. }
  split; [exact Hno |].
  apply (@scrape_without_document bs4.node sample_soup InShorts env_down world0 Hno).
Defined.

Lemma scrape_after_exhaustion_witness :
  (forall k, (k < 3)%nat ->
     transport_failure (session_get env_down (k + gets world0)%nat (site_url HindustanTimes) 10))
  /\ exists w' e1 e2 e3,
       @site_scrape bs4.node sample_soup HindustanTimes env_down world0 = (Ok [], w')
       /\ gets w' = (3 + gets world0)%nat
       /\ logged w' =
          (logged world0 ++
           [(INFO, "Starting " +:+ site_label HindustanTimes +:+ " scraping...");
            (WARNING, "Request attempt 1 failed for " +:+ site_url HindustanTimes +:+ ": " +:+ exn_msg e1);
            (WARNING, "Request attempt 2 failed for " +:+ site_url HindustanTimes +:+ ": " +:+ exn_msg e2);
            (WARNING, "Request attempt 3 failed for " +:+ site_url HindustanTimes +:+ ": " +:+ exn_msg e3);
            (ERROR, "All retry attempts failed for " +:+ site_url HindustanTimes)])%list.
Proof.
  split; [intros k Hk; reflexivity |].
  apply (@scrape_after_exhaustion bs4.node sample_soup HindustanTimes env_down world0).
  intros k Hk. reflexivity.
Defined.

(** X15. For every hash of the source name, negative ones included,
    [get_scraper_node] returns [node_0] or [node_1], the first exactly for
    an even hash, and writes one line to the log, which names that node. *)
Theorem get_scraper_node_two_nodes (hash : string -> Z) (source : string) (env : Env) (w : World) :
  exists node,
    get_scraper_node hash source env w
    = (Ok node, logging INFO ("Source '" +:+ source +:+ "' assigned to " +:+ node) w)
    /\ (node = "node_0" \/ node = "node_1")
    /\ (node = "node_0" <-> Z.even (hash source) = true).
Proof.
  unfold get_scraper_node.
  pose proof (Z.mod_pos_bound (hash source) 2 ltac:(lia)) as Hb.
  assert (Hcase : hash source mod 2 = 0 \/ hash source mod 2 = 1) by lia.
  rewrite Zmod_even in *.
  destruct (Z.even (hash source)); destruct Hcase as [Hc | Hc]; try discriminate.
  - exists "node_0". split; [reflexivity |]. split; [left; reflexivity |]. split; reflexivity.
  - exists "node_1". split; [reflexivity |]. split; [right; reflexivity |].
    split; discriminate.
Qed.

(** ** The mock scrapers and the registry *)

Lemma mock_inshorts_shape :
  MockInShortsScaper.scrape_articles =
  with_local [] (
    lift (log INFO "Generating mock InShorts articles...");;
    for_in (R := unit) (range 10) (mock_step inshorts_mock_article);;
    mock_articles ← get_local;
    lift (log INFO ("Generated " +:+ pretty (length mock_articles) +:+ " mock articles from InShorts"));;
    mret mock_articles).
Proof. reflexivity. Qed.

Lemma mock_ht_shape :
  MockHindustanTimesScaper.scrape_articles =
  with_local [] (
    lift (log INFO "Generating mock Hindustan Times articles...");;
    for_in (R := unit) (range 10) (mock_step ht_mock_article);;
    mock_articles ← get_local;
    lift (log INFO ("Generated " +:+ pretty (length mock_articles)
                    +:+ " mock articles from Hindustan Times"));;
    mret mock_articles).
Proof. reflexivity. Qed.

Lemma mock_loop (make : Z -> datetime -> Article) :
  (forall i published, published_at (make i published) = published) ->
  forall idxs env articles w,
  exists new w',
    for_in idxs (mock_step make) env (articles, w) = (Ok Next, ((articles ++ new)%list, w'))
    /\ gets w' = gets w /\ slept w' = slept w /\ logged w' = logged w
    /\ ticks w' = (ticks w + length idxs)%nat
    /\ draws w' = (draws w + length idxs)%nat
    /\ length new = length idxs
    /\ Forall (stamped env (ticks w) (ticks w') 48) new.
Proof.
  intros Hmake idxs env. induction idxs as [| i idxs IH]; intros articles w.
  - exists [], w. rewrite app_nil_r. simpl. repeat split; try lia. constructor.
  - rewrite for_in_cons. unfold mock_step at 1. run_all.
    unfold timezone_now, random_randint. cbv beta iota.
    destruct (IH (articles ++ [make i (minus_hours
                (mk_datetime (wall_clock env (ticks w)) (if USE_TZ env then Some UTC else None))
                (randint_of_bits 1 48 (getrandbits env (draws (tick w)))))])%list
                (drawn (tick w)))
      as (new & w' & Hrun & Hg & Hs & Hl & Ht & Hd & Hlen & Hall).
    rewrite Hrun. eexists (_ :: new), w'. rewrite <- app_assoc. split; [reflexivity |].
    simpl in Hg, Hs, Hl, Ht, Hd. simpl.
    repeat split; try lia; try assumption.
    constructor.
    + exists (ticks w), (randint_of_bits 1 48 (getrandbits env (draws w))).
      split; [lia |]. split; [apply randint_range; lia | apply Hmake].
    + eapply Forall_impl; [exact Hall |]. intros a. apply stamped_wider; simpl; lia.
Qed.

Lemma mock_scrape_run (make : Z -> datetime -> Article) (opening closing : string) env w :
  (forall i published, published_at (make i published) = published) ->
  exists articles w',
    with_local [] (
      lift (log INFO opening);;
      for_in (R := unit) (range 10) (mock_step make);;
      mock_articles ← get_local;
      lift (log INFO ("Generated " +:+ pretty (length mock_articles) +:+ closing));;
      mret mock_articles) env w = (Ok articles, w')
    /\ gets w' = gets w /\ slept w' = slept w
    /\ ticks w' = (ticks w + 10)%nat
    /\ draws w' = (draws w + 10)%nat
    /\ logged w' = (logged w ++ [(INFO, opening); (INFO, "Generated 10" +:+ closing)])%list
    /\ length articles = 10%nat
    /\ Forall (stamped env (ticks w) (ticks w') 48) articles.
Proof.
  intros Hmake.
  destruct (mock_loop make Hmake (range 10) env [] (logging INFO opening w))
    as (new & w1 & Hrun & Hg & Hs & Hl & Ht & Hd & Hlen & Hall).
  run_all. fold (logging INFO opening w). rewrite Hrun. cbv beta iota.
  simpl app. eexists _, _. split; [reflexivity |].
  change (length (range 10)) with 10%nat in *.
  simpl in Hg, Hs, Hl, Ht, Hd, Hall. simpl.
  rewrite Hg, Hs, Hl, Ht, Hd, Hlen, <- app_assoc.
  repeat split. rewrite <- Ht. exact Hall.
Qed.

Lemma registered_is_mock source_id (scrape : M World (list Article)) :
  SCRAPERS !! source_id = Some scrape ->
  (source_id = "inshorts" /\ scrape = scrape_inshorts)
  \/ (source_id = "hindustan_times" /\ scrape = scrape_ht).
Proof.
  rewrite SCRAPERS_lookup.
  destruct (decide (source_id = "inshorts")) as [-> |].
  - intros [= <-]. left. split; reflexivity.
  - destruct (decide (source_id = "hindustan_times")) as [-> |]; [| discriminate].
    intros [= <-]. right. split; reflexivity.
Qed.

Lemma registered_run source_id (scrape : M World (list Article)) env w :
  SCRAPERS !! source_id = Some scrape ->
  exists articles w' opening closing,
    scrape env w = (Ok articles, w')
    /\ gets w' = gets w /\ slept w' = slept w
    /\ ticks w' = (ticks w + 10)%nat
    /\ draws w' = (draws w + 10)%nat
    /\ logged w' = (logged w ++ [(INFO, opening); (INFO, closing)])%list
    /\ length articles = 10%nat
    /\ Forall (stamped env (ticks w) (ticks w') 48) articles.
Proof.
  intros Hreg. destruct (registered_is_mock _ _ Hreg) as [[_ ->] | [_ ->]].
  - unfold scrape_inshorts. rewrite mock_inshorts_shape.
    destruct (mock_scrape_run inshorts_mock_article "Generating mock InShorts articles..."
                " mock articles from InShorts" env w ltac:(reflexivity))
      as (articles & w' & Hrun & Hrest).
    exists articles, w'. eexists _, _. split; [exact Hrun | exact Hrest].
  - unfold scrape_ht. rewrite mock_ht_shape.
    destruct (mock_scrape_run ht_mock_article "Generating mock Hindustan Times articles..."
                " mock articles from Hindustan Times" env w ltac:(reflexivity))
      as (articles & w' & Hrun & Hrest).
    exists articles, w'. eexists _, _. split; [exact Hrun | exact Hrest].
Qed.

(** X16. A scrape of a registered source sends no request and does not
    sleep: it reads the clock ten times, draws ten random numbers and
    writes two lines to the log, one before and one after its loop. *)
Theorem registered_scrape_offline (source_id : string) (scrape : M World (list Article))
    (env : Env) (w : World) :
  SCRAPERS !! source_id = Some scrape ->
  exists articles w' opening closing,
    scrape env w = (Ok articles, w')
    /\ gets w' = gets w /\ slept w' = slept w
    /\ ticks w' = (ticks w + 10)%nat
    /\ draws w' = (draws w + 10)%nat
    /\ logged w' = (logged w ++ [(INFO, opening); (INFO, closing)])%list.
Proof.
  intros Hreg.
  destruct (registered_run source_id scrape env w Hreg)
    as (articles & w' & opening & closing & Hrun & Hg & Hs & Ht & Hd & Hl & _).
  exists articles, w', opening, closing. repeat split; assumption.
Qed.

Lemma registered_scrape_offline_witness :
  SCRAPERS !! "hindustan_times" = Some scrape_ht
  /\ exists articles w' opening closing,
       scrape_ht env_down world0 = (Ok articles, w')
       /\ gets w' = gets world0 /\ slept w' = slept world0
       /\ ticks w' = (ticks world0 + 10)%nat
       /\ draws w' = (draws world0 + 10)%nat
       /\ logged w' = (logged world0 ++ [(INFO, opening); (INFO, closing)])%list.
Proof.
  split; [apply SCRAPERS_lookup |].
  apply (registered_scrape_offline "hindustan_times" scrape_ht env_down world0).
  apply SCRAPERS_lookup.
Defined.

(** X17. The timestamp of every record of a scrape of a registered source
    is a reading of the clock taken during that scrape, less a whole
    number of hours from 1 to 48. *)
Theorem registered_scrape_timestamps (source_id : string) (scrape : M World (list Article))
    (env : Env) (w : World) :
  SCRAPERS !! source_id = Some scrape ->
  exists articles w',
    scrape env w = (Ok articles, w')
    /\ Forall (stamped env (ticks w) (ticks w') 48) articles.
Proof.
  intros Hreg.
  destruct (registered_run source_id scrape env w Hreg)
    as (articles & w' & _ & _ & Hrun & _ & _ & _ & _ & _ & _ & Hall).
  exists articles, w'. split; assumption.
Qed.

Lemma registered_scrape_timestamps_witness :
  SCRAPERS !! "inshorts" = Some scrape_inshorts
  /\ exists articles w',
       scrape_inshorts env_ticking world0 = (Ok articles, w')
       /\ Forall (stamped env_ticking (ticks world0) (ticks w') 48) articles.
Proof.
  split; [apply SCRAPERS_lookup |].
  apply (registered_scrape_timestamps "inshorts" scrape_inshorts env_ticking world0).
  apply SCRAPERS_lookup.
Defined.

(** X18. The function that [get_scraper_function] returns for an
    identifier yields ten records that all carry this identifier as their
    source, with ten different urls and ten different titles. *)
Theorem registered_scrape_sources (source_id : string) (scrape : M World (list Article))
    (env : Env) (w : World) :
  get_scraper_function source_id = Some scrape ->
  exists articles w',
    scrape env w = (Ok articles, w')
    /\ length articles = 10%nat
    /\ Forall (fun a => source a = source_id) articles
    /\ NoDup (map url articles)
    /\ NoDup (map title articles).
Proof.
  unfold get_scraper_function. intros Hreg.
  assert (Hfields : exists articles w' expected,
            scrape env w = (Ok articles, w')
            /\ map fields articles = expected
            /\ length expected = 10%nat
            /\ Forall (fun f : string * string * string * string => snd f = source_id) expected
            /\ NoDup (map (fun f : string * string * string * string => snd (fst f)) expected)
            /\ NoDup (map (fun f : string * string * string * string => fst (fst (fst f))) expected)).
  { destruct (registered_is_mock _ _ Hreg) as [[-> ->] | [-> ->]].
    - destruct (scrape_inshorts_fields env w) as (articles & w' & Hrun & Hf).
      exists articles, w', (map inshorts_mock_fields (indices 1 10)).
      split; [exact Hrun |]. split; [exact Hf |]. split; [reflexivity |].
      split; [vm_compute; repeat constructor |].
      split; apply (bool_decide_unpack _); vm_compute; reflexivity.
    - destruct (scrape_ht_fields env w) as (articles & w' & Hrun & Hf).
      exists articles, w', (map ht_mock_fields (indices 1 10)).
      split; [exact Hrun |]. split; [exact Hf |]. split; [reflexivity |].
      split; [vm_compute; repeat constructor |].
      split; apply (bool_decide_unpack _); vm_compute; reflexivity. }
  destruct Hfields as (articles & w' & expected & Hrun & Hf & Hlen & Hsrc & Hurl & Htitle).
  exists articles, w'. split; [exact Hrun |]. subst expected.
  rewrite length_map in Hlen. rewrite map_map in Hurl, Htitle.
  split; [exact Hlen |]. split; [| split; assumption].
  apply Forall_forall. intros a Ha.
  rewrite Forall_forall in Hsrc. apply (Hsrc (fields a)).
  apply list_elem_of_In, in_map, list_elem_of_In, Ha.
Qed.

Lemma registered_scrape_sources_witness :
  get_scraper_function "hindustan_times" = Some scrape_ht
  /\ exists articles w',
       scrape_ht env_sample world0 = (Ok articles, w')
       /\ length articles = 10%nat
       /\ Forall (fun a => source a = "hindustan_times") articles
       /\ NoDup (map url articles)
       /\ NoDup (map title articles).
Proof.
  split; [apply SCRAPERS_lookup |].
  apply (registered_scrape_sources "hindustan_times" scrape_ht env_sample world0).
  apply SCRAPERS_lookup.
Defined.
